(** * Authentication core of the CMS backend

    A shallow embedding of the authentication code of [main.py] (the helpers
    [verify_password], [get_password_hash], [create_access_token], the
    dependency [get_current_admin] and the routes [register_admin] and
    [login]) together with the [AdminUser] schema of [schemas.py].

    Python dictionaries are finite maps from strings to values, the
    collection [db["adminuser"]] is a list of documents in natural order,
    exceptions are an error monad layered over explicit state passing, and
    the libraries the code calls (python-jose, passlib, pymongo, pydantic)
    are modelled at the level of their documented behaviour, with the
    cryptographic primitives left abstract. *)

From Stdlib Require Import ZArith Ascii String List Lia Sorted.
From stdpp Require Import base option gmap strings list.

Open Scope string_scope.
Open Scope Z_scope.

(** ** Values and exceptions *)

(** The Python values that occur in documents and in token claims. A
    [datetime] is the number of microseconds since the epoch. *)
Inductive Value :=
| VNone
| VBool (b : bool)
| VInt (n : Z)
| VStr (s : string)
| VDatetime (us : Z)
| VObjectId (n : nat).

#[global] Instance Value_eq_dec : EqDecision Value.
Proof. solve_decision. Defined.

(** python-jose's exception family: [JWTError] and its two subclasses, all
    caught by [except JWTError]. *)
Inductive JoseError :=
| Malformed            (* the string is not a compact JWS *)
| BadSignature         (* disallowed algorithm or signature mismatch *)
| ExpiredSignatureError
| JWTClaimsError.

Inductive Exn :=
| HTTPException (status_code : Z) (detail : string)
| JWTError (kind : JoseError)
| ValidationError      (* pydantic *)
| ValueError           (* passlib: UnknownHashError and malformed hashes *)
| TypeError
| NotImplementedError  (* pymongo: truth-testing a database handle *)
| KeyError (key : string)
| DuplicateKeyError    (* the store's uniqueness constraint *)
| PyMongoError.        (* the store could not carry out an operation *)

#[global] Instance JoseError_eq_dec : EqDecision JoseError.
Proof. solve_decision. Defined.
#[global] Instance Exn_eq_dec : EqDecision Exn.
Proof. solve_decision. Defined.

Inductive Result (A : Type) :=
| Ok (a : A)
| Raise (e : Exn).
Arguments Ok {A} a.
Arguments Raise {A} e.

(** ** Documents and the identity store *)

Abbreviation Doc := (gmap string Value).

(** The handle [db]: the [adminuser] collection in natural order, the
    counter the store draws fresh [_id]s from, and whether the collection
    carries a unique index on [email]. *)
Record Database := mkDatabase {
  adminuser : list Doc;
  next_id : nat;
  unique_index : bool
}.

(** The world a request runs in. [db] is [None] when no database is
    configured. Every interaction with the environment (a clock reading, a
    draw of random bytes, a store operation) consumes one [tick]; the three
    oracles give the environment's answer at each tick. *)
Record World := mkWorld {
  db : option Database;
  tick : nat;
  utcnow_at : nat -> Z;
  urandom_at : nat -> string;
  store_fails_at : nat -> bool
}.

Definition advance (w : World) : World :=
  mkWorld (db w) (S (tick w)) (utcnow_at w) (urandom_at w) (store_fails_at w).

(** The world [n] interactions later. *)
Definition after (n : nat) (w : World) : World :=
  mkWorld (db w) (n + tick w) (utcnow_at w) (urandom_at w) (store_fails_at w).

Definition with_db (d : Database) (w : World) : World :=
  mkWorld (Some d) (tick w) (utcnow_at w) (urandom_at w) (store_fails_at w).

(** ** The monad of request handlers: state and exceptions

    A raised exception keeps the state reached so far, as in Python. *)
Definition M (A : Type) : Type := World -> Result A * World.

Definition ret {A} (a : A) : M A := fun w => (Ok a, w).

Definition raise {A} (e : Exn) : M A := fun w => (Raise e, w).

Definition bind {A B} (m : M A) (k : A -> M B) : M B :=
  fun w => match m w with
           | (Ok a, w') => k a w'
           | (Raise e, w') => (Raise e, w')
           end.

Definition lift {A} (r : Result A) : M A := fun w => (r, w).

(** [try: body  except JWTError: raise e'] *)
Definition is_JWTError (e : Exn) : bool :=
  match e with JWTError _ => true | _ => false end.

Definition except_JWTError {A} (body : M A) (e' : Exn) : M A :=
  fun w => match body w with
           | (Ok a, w') => (Ok a, w')
           | (Raise e, w') => if is_JWTError e then (Raise e', w') else (Raise e, w')
           end.

Notation "x <- m ;; k" := (bind m (fun x => k))
  (at level 60, m at next level, right associativity).
Notation "m ;;; k" := (bind m (fun _ => k))
  (at level 60, right associativity).

(** [datetime.utcnow()] and the random bytes a salt is made of. *)
Definition utcnow : M Z := fun w => (Ok (utcnow_at w (tick w)), advance w).

Definition urandom : M string := fun w => (Ok (urandom_at w (tick w)), advance w).

(** ** The document store (pymongo's collection interface)

    [db["adminuser"]] subscripts the handle, which raises [TypeError] when
    the handle is [None]; the operation then either fails as a whole (the
    store is unreachable at this tick) or runs on the collection. *)
Definition store_op {A} (op : Database -> Result A * Database) : M A :=
  fun w => match db w with
           | None => (Raise TypeError, w)
           | Some d =>
               if store_fails_at w (tick w) then (Raise PyMongoError, advance w)
               else let (r, d') := op d in (r, with_db d' (advance w))
           end.

(** [bool(db)], as [if db] takes it. [None] is falsy. A pymongo [Database]
    does not implement truth-value testing: its [__bool__] raises
    [NotImplementedError] and asks to compare with [None] instead. *)
Definition db_truth : M bool :=
  fun w => match db w with
           | None => (Ok false, w)
           | Some _ => (Raise NotImplementedError, w)
           end.

(** The filter [{"email": v}]: equality on the field; a [None] filter value
    also matches a document without the field. *)
Definition matches (v : Value) (d : Doc) : bool :=
  match v with
  | VNone => bool_decide (d !! "email" = None) || bool_decide (d !! "email" = Some VNone)
  | _ => bool_decide (d !! "email" = Some v)
  end.

(** [find_one({"email": v})]: the first matching document, or [None]. *)
Definition find_one (v : Value) : M (option Doc) :=
  store_op (fun d => (Ok (List.find (matches v) (adminuser d)), d)).

(** [update_one({"email": v}, {"$set": {field: x}})]: the first matching
    document gets the field set; with no match nothing changes and nothing
    is raised. *)
Fixpoint update_first (v : Value) (field : string) (x : Value) (docs : list Doc) : list Doc :=
  match docs with
  | [] => []
  | d :: ds => if matches v d then <[field := x]> d :: ds
               else d :: update_first v field x ds
  end.

Definition update_one (v : Value) (field : string) (x : Value) : M unit :=
  store_op (fun d =>
    (Ok tt, mkDatabase (update_first v field x (adminuser d)) (next_id d) (unique_index d))).

(** Python truthiness of [find_one]'s result: [None] and the empty
    dictionary are falsy. *)
Definition truthy (user : option Doc) : bool :=
  match user with
  | None => false
  | Some d => negb (bool_decide (d = ∅))
  end.

(** [user[key]] *)
Definition getitem (user : option Doc) (key : string) : Result Value :=
  match user with
  | None => Raise TypeError
  | Some d => match d !! key with
              | Some v => Ok v
              | None => Raise (KeyError key)
              end
  end.

(** [user.get(key, dflt)] *)
Definition dict_get (user : option Doc) (key : string) (dflt : Value) : Result Value :=
  match user with
  | None => Raise TypeError
  | Some d => Ok (default dflt (d !! key))
  end.

(** ** The [AdminUser] schema (schemas.py) *)

Record AdminUser := mkAdminUser {
  email : string;
  password_hash : string;
  role : string;
  name : option string;
  last_login : option Z;
  is_active : bool
}.

#[global] Instance AdminUser_eq_dec : EqDecision AdminUser.
Proof. solve_decision. Defined.

(** The range of [datetime], the years 1 to 9999, in microseconds since
    the epoch. *)
Definition datetime_min : Z := -62135596800000000.

Definition datetime_max : Z := 253402300799999999.

(** Field validators. A required field ([Field(...)]) must be present; a
    field with a default takes it when the key is missing; unknown keys are
    ignored. A value of the wrong type is a [ValidationError], where
    pydantic's lax mode does not coerce it: a string field takes strings
    only, a boolean field also takes the integers 0 and 1, and a datetime
    field also takes an integer as a Unix time, in seconds up to 2e10 in
    magnitude and in milliseconds beyond. (The string forms pydantic
    accepts for booleans and datetimes are not modelled.) *)
Definition required_str (kw : Doc) (key : string) : Result string :=
  match kw !! key with
  | Some (VStr s) => Ok s
  | _ => Raise ValidationError
  end.

Definition defaulted_str (kw : Doc) (key dflt : string) : Result string :=
  match kw !! key with
  | None => Ok dflt
  | Some (VStr s) => Ok s
  | Some _ => Raise ValidationError
  end.

Definition optional_str (kw : Doc) (key : string) : Result (option string) :=
  match kw !! key with
  | None | Some VNone => Ok None
  | Some (VStr s) => Ok (Some s)
  | Some _ => Raise ValidationError
  end.

Definition unix_time (n : Z) : Result (option Z) :=
  let us := if Z.abs n <=? 20000000000 then n * 1000000 else n * 1000 in
  if (datetime_min <=? us) && (us <=? datetime_max) then Ok (Some us)
  else Raise ValidationError.

Definition optional_datetime (kw : Doc) (key : string) : Result (option Z) :=
  match kw !! key with
  | None | Some VNone => Ok None
  | Some (VDatetime t) => Ok (Some t)
  | Some (VInt n) => unix_time n
  | Some _ => Raise ValidationError
  end.

Definition defaulted_bool (kw : Doc) (key : string) (dflt : bool) : Result bool :=
  match kw !! key with
  | None => Ok dflt
  | Some (VBool b) => Ok b
  | Some (VInt 0) => Ok false
  | Some (VInt 1) => Ok true
  | Some _ => Raise ValidationError
  end.

Definition rbind {A B} (r : Result A) (k : A -> Result B) : Result B :=
  match r with
  | Ok a => k a
  | Raise e => Raise e
  end.

(** The constructor [AdminUser], called with the keyword arguments [kw]. *)
Definition AdminUser_init (kw : Doc) : Result AdminUser :=
  rbind (required_str kw "email") (fun e =>
  rbind (required_str kw "password_hash") (fun h =>
  rbind (defaulted_str kw "role" "admin") (fun r =>
  rbind (optional_str kw "name") (fun n =>
  rbind (optional_datetime kw "last_login") (fun l =>
  rbind (defaulted_bool kw "is_active" true) (fun a =>
  Ok (mkAdminUser e h r n l a))))))).

Definition of_option {A} (f : A -> Value) (o : option A) : Value :=
  match o with
  | Some a => f a
  | None => VNone
  end.

(** [record.model_dump()] *)
Definition model_dump (u : AdminUser) : Doc :=
  <["email" := VStr (email u)]>
  (<["password_hash" := VStr (password_hash u)]>
  (<["role" := VStr (role u)]>
  (<["name" := of_option VStr (name u)]>
  (<["last_login" := of_option VDatetime (last_login u)]>
  (<["is_active" := VBool (is_active u)]> ∅))))).

(** Modelled from the spec: [create_document] of the repository's database
    module, which is not among the source files. The spec's store adapter
    has [insert(record) -> Result<(), DuplicateKeyError>]: the record's
    fields are stored as one new document, to which the store adds its
    [_id] (the key [get_current_admin] strips again); a store that enforces
    the uniqueness constraint refuses a second document with the same
    email. *)
Definition insert_one (doc : Doc) (d : Database) : Result unit * Database :=
  if unique_index d && existsb (matches (default VNone (doc !! "email"))) (adminuser d)
  then (Raise DuplicateKeyError, d)
  else (Ok tt, mkDatabase (adminuser d ++ [<["_id" := VObjectId (next_id d)]> doc])
                          (S (next_id d)) (unique_index d)).

Definition create_document (data : AdminUser) : M unit :=
  store_op (insert_one (model_dump data)).

(** ** Primitives

    The two cryptographic functions the libraries rest on are parameters of
    the development: bcrypt (hashing a secret under a salt, and checking a
    secret against a hash string that carries a bcrypt prefix) and the
    keyed signature of a token's header and claims. *)
Record Primitives := mkPrimitives {
  bcrypt_hash : string -> string -> Result string;
  bcrypt_verify : string -> string -> Result bool;
  hmac_sign : string -> string -> Doc -> string
}.

(** ** passlib: [CryptContext(schemes=["bcrypt"], deprecated="auto")] *)

Definition bcrypt_idents : list string := ["$2$"; "$2a$"; "$2x$"; "$2y$"; "$2b$"].

Definition bcrypt_identify (h : string) : bool :=
  existsb (fun ident => String.prefix ident h) bcrypt_idents.

(** [pwd_context.verify(secret, hash)]: a [None] hash is never matched; a
    hash string that no configured scheme identifies is an error, not a
    mismatch; an identified hash is handed to the scheme. *)
Definition pwd_context_verify (P : Primitives) (secret : string) (hash : Value) : Result bool :=
  match hash with
  | VNone => Ok false
  | VStr h => if bcrypt_identify h then bcrypt_verify P secret h else Raise ValueError
  | _ => Raise TypeError
  end.

(** [pwd_context.hash(secret)]: bcrypt under a freshly drawn salt. *)
Definition pwd_context_hash (P : Primitives) (secret : string) : M string :=
  salt <- urandom ;; lift (bcrypt_hash P salt secret).

(** ** python-jose: [jwt.encode] and [jwt.decode] *)

(** A bearer string: either a compact JWS, read as its header algorithm,
    its claims and its signature, or a string that does not parse as one. *)
Inductive Bearer :=
| Jws (alg : string) (claims : Doc) (signature : string)
| NotJws (raw : string).

#[global] Instance Bearer_eq_dec : EqDecision Bearer.
Proof. solve_decision. Defined.

(** [calendar.timegm(dt.utctimetuple())]: whole seconds since the epoch. *)
Definition timegm (us : Z) : Z := us / 1000000.

Definition numeric_date (v : Value) : Value :=
  match v with
  | VDatetime t => VInt (timegm t)
  | _ => v
  end.

Definition json_value (v : Value) : bool :=
  match v with
  | VDatetime _ | VObjectId _ => false
  | _ => true
  end.

Definition json_serialisable (c : Doc) : bool :=
  bool_decide (map_Forall (fun _ v => json_value v = true) c).

(** [jwt.encode(claims, key, algorithm)]: datetimes under the three time
    claims become numeric dates, the claims are serialised and signed. *)
Definition jwt_encode (P : Primitives) (claims : Doc) (key algorithm : string) : Result Bearer :=
  let claims := alter numeric_date "nbf" (alter numeric_date "iat" (alter numeric_date "exp" claims)) in
  if json_serialisable claims
  then Ok (Jws algorithm claims (hmac_sign P key algorithm claims))
  else Raise TypeError.

(** Python's [int(s)] on a string: surrounding whitespace is dropped, one
    sign may lead, and the rest is decimal digits, where single underscores
    may stand between two digits. Strings are taken as ASCII. *)
Definition is_space (c : ascii) : bool :=
  let n := nat_of_ascii c in
  ((9 <=? n)%nat && (n <=? 13)%nat) || ((28 <=? n)%nat && (n <=? 32)%nat).

Definition digit_of (c : ascii) : option Z :=
  let n := nat_of_ascii c in
  if ((48 <=? n)%nat && (n <=? 57)%nat) then Some (Z.of_nat (n - 48)) else None.

Fixpoint lstrip (s : string) : string :=
  match s with
  | String c rest => if is_space c then lstrip rest else s
  | EmptyString => EmptyString
  end.

Definition strip (s : string) : string :=
  String.rev (lstrip (String.rev (lstrip s))).

(** [after_digit] tells whether the character before was a digit: a
    literal can end only there, and an underscore is allowed only there. *)
Fixpoint digits (s : string) (acc : Z) (after_digit : bool) : option Z :=
  match s with
  | EmptyString => if after_digit then Some acc else None
  | String c rest =>
      match digit_of c with
      | Some d => digits rest (10 * acc + d) true
      | None => if Ascii.eqb c "_"%char && after_digit then digits rest acc false
                else None
      end
  end.

Definition int_of_str (s : string) : option Z :=
  match strip s with
  | String "-" rest => Z.opp <$> digits rest 0 false
  | String "+" rest => digits rest 0 false
  | body => digits body 0 false
  end.

(** [int(v)]: a string that is not an integer literal is a [ValueError];
    [None] and the values that are no numbers are a [TypeError]. *)
Definition py_int (v : Value) : Result Z :=
  match v with
  | VInt n => Ok n
  | VBool b => Ok (if b then 1 else 0)
  | VStr s => match int_of_str s with
              | Some n => Ok n
              | None => Raise ValueError
              end
  | VNone | VDatetime _ | VObjectId _ => Raise TypeError
  end.

(** The time claims are read as [try: int(claims[key])  except ValueError:
    raise JWTClaimsError]: a numeric string is accepted, and a [TypeError]
    is not caught. *)
Definition int_claim (c : Doc) (key : string) : Result (option Z) :=
  match c !! key with
  | None => Ok None
  | Some v => match py_int v with
              | Ok n => Ok (Some n)
              | Raise ValueError => Raise (JWTError JWTClaimsError)
              | Raise e => Raise e
              end
  end.

Definition str_claim (c : Doc) (key : string) : Result unit :=
  match c !! key with
  | None | Some (VStr _) => Ok tt
  | Some _ => Raise (JWTError JWTClaimsError)
  end.

Definition validate_iat (c : Doc) : M unit :=
  _ <- lift (int_claim c "iat") ;; ret tt.

Definition validate_nbf (c : Doc) : M unit :=
  nbf <- lift (int_claim c "nbf") ;;
  match nbf with
  | None => ret tt
  | Some n => now <- utcnow ;;
              if timegm now <? n then raise (JWTError JWTClaimsError) else ret tt
  end.

(** The token has expired when [exp < now], both in whole seconds. *)
Definition validate_exp (c : Doc) : M unit :=
  exp <- lift (int_claim c "exp") ;;
  match exp with
  | None => ret tt
  | Some e => now <- utcnow ;;
              if e <? timegm now then raise (JWTError ExpiredSignatureError) else ret tt
  end.

(** No audience and no access token are passed to [decode], so a token
    that carries an [aud] or an [at_hash] claim is refused. *)
Definition validate_absent (c : Doc) (key : string) : M unit :=
  match c !! key with
  | None => ret tt
  | Some _ => raise (JWTError JWTClaimsError)
  end.

Definition validate_claims (c : Doc) : M unit :=
  validate_iat c ;;;
  validate_nbf c ;;;
  validate_exp c ;;;
  validate_absent c "aud" ;;;
  lift (str_claim c "sub") ;;;
  lift (str_claim c "jti") ;;;
  validate_absent c "at_hash".

(** [jwt.decode(token, key, algorithms=...)] *)
Definition jwt_decode (P : Primitives) (token : Bearer) (key : string)
    (algorithms : list string) : M Doc :=
  match token with
  | NotJws _ => raise (JWTError Malformed)
  | Jws alg claims signature =>
      if negb (bool_decide (alg ∈ algorithms)) then raise (JWTError BadSignature)
      else if negb (bool_decide (signature = hmac_sign P key alg claims))
      then raise (JWTError BadSignature)
      else validate_claims claims ;;; ret claims
  end.

(** ** main.py *)

(** The request and response models. *)
Record Token := mkToken {
  access_token : Bearer;
  token_type : string
}.

Record AdminCreate := mkAdminCreate {
  payload_email : string;
  payload_password : string;
  payload_name : option string
}.

Record OAuth2PasswordRequestForm := mkForm {
  username : string;
  password : string
}.

Definition ALGORITHM : string := "HS256".

Definition ACCESS_TOKEN_EXPIRE_MINUTES : Z := 60 * 8.

(** [timedelta(minutes=m)], in microseconds. *)
Definition timedelta_minutes (m : Z) : Z := m * 60 * 1000000.

(** [expires_delta or dflt]: [None] and the zero duration are falsy. *)
Definition timedelta_or (expires_delta : option Z) (dflt : Z) : Z :=
  match expires_delta with
  | Some d => if d =? 0 then dflt else d
  | None => dflt
  end.

(** [s.split("@")[0]]: what precedes the first ['@'], or all of [s]. *)
Fixpoint split_at_0 (s : string) : string :=
  match s with
  | EmptyString => EmptyString
  | String c rest => if Ascii.eqb c "@"%char then EmptyString
                     else String c (split_at_0 rest)
  end.

(** [name or dflt]: [None] and the empty string are falsy. *)
Definition str_or (name : option string) (dflt : string) : string :=
  match name with
  | Some EmptyString | None => dflt
  | Some n => n
  end.

Definition credentials_exception : Exn :=
  HTTPException 401 "Could not validate credentials".

Section Main.

(** The process environment, read once at start-up, and the primitives. *)
Variable environ : gmap string string.
Variable P : Primitives.

Definition JWT_SECRET : string :=
  default "dev-secret-change" (environ !! "JWT_SECRET").

Definition verify_password (plain_password : string) (hashed_password : Value) : Result bool :=
  pwd_context_verify P plain_password hashed_password.

Definition get_password_hash (password : string) : M string :=
  pwd_context_hash P password.

(** The expiry is the sum of two numbers of microseconds. A [datetime]
    ranges over the years 1 to 9999 only: where a property depends on an
    explicit lifetime it assumes the sum to lie in that range, outside of
    which Python raises [OverflowError]. *)
Definition create_access_token (data : Doc) (expires_delta : option Z) : M Bearer :=
  let to_encode := data in
  now <- utcnow ;;
  let expire := now + timedelta_or expires_delta (timedelta_minutes ACCESS_TOKEN_EXPIRE_MINUTES) in
  let to_encode := <["exp" := VDatetime expire]> to_encode in
  lift (jwt_encode P to_encode JWT_SECRET ALGORITHM).

Definition get_current_admin (token : Bearer) : M AdminUser :=
  email <- except_JWTError
             (payload <- jwt_decode P token JWT_SECRET [ALGORITHM] ;;
              let email := default VNone (payload !! "sub") in
              if bool_decide (email = VNone) then raise credentials_exception
              else ret email)
             credentials_exception ;;
  user <- (configured <- db_truth ;;
           if (configured : bool) then find_one email else ret None) ;;
  if negb (truthy user) then raise credentials_exception
  else lift (AdminUser_init (delete "_id" (default ∅ user))).

Definition register_admin (payload : AdminCreate) : M Token :=
  existing <- find_one (VStr (payload_email payload)) ;;
  if truthy existing then raise (HTTPException 400 "Email already registered")
  else
    hashed <- get_password_hash (payload_password payload) ;;
    record <- lift (AdminUser_init
                (<["email" := VStr (payload_email payload)]>
                (<["password_hash" := VStr hashed]>
                (<["name" := VStr (str_or (payload_name payload)
                                     (split_at_0 (payload_email payload)))]> ∅)))) ;;
    create_document record ;;;
    token <- create_access_token {["sub" := VStr (payload_email payload)]} None ;;
    ret (mkToken token "bearer").

Definition login (form_data : OAuth2PasswordRequestForm) : M Token :=
  user <- find_one (VStr (username form_data)) ;;
  rejected <- (if negb (truthy user) then ret true
               else hashed <- lift (dict_get user "password_hash" (VStr "")) ;;
                    ok <- lift (verify_password (password form_data) hashed) ;;
                    ret (negb ok)) ;;
  if (rejected : bool) then raise (HTTPException 400 "Incorrect email or password")
  else
    sub <- lift (getitem user "email") ;;
    token <- create_access_token {["sub" := sub]} None ;;
    key <- lift (getitem user "email") ;;
    now <- utcnow ;;
    update_one key "last_login" (VDatetime now) ;;;
    ret (mkToken token "bearer").

End Main.

(** ** What the properties speak of *)

(** The documents of the identity store, and the emails they carry. *)
Definition documents (w : World) : list Doc :=
  match db w with
  | Some d => adminuser d
  | None => []
  end.

Definition emails (docs : list Doc) : list Value :=
  omap (fun d : Doc => d !! "email") docs.

(** Email uniqueness: no two documents carry the same email. *)
Definition unique_emails (w : World) : Prop := NoDup (emails (documents w)).

(** A database is configured and answers the next operation. *)
Definition reachable (w : World) : Prop :=
  is_Some (db w) /\ store_fails_at w (tick w) = false.

(** The identity record [find_one] yields for an email: the first document
    that carries it. *)
Definition lookup_email (e : string) (w : World) : option Doc :=
  List.find (matches (VStr e)) (documents w).

(** A sequence of login attempts, one after the other. *)
Fixpoint logins (environ : gmap string string) (P : Primitives)
    (forms : list OAuth2PasswordRequestForm) (w : World) : list (Result Token) * World :=
  match forms with
  | [] => ([], w)
  | f :: fs => let (r, w1) := login environ P f w in
               let (rs, w2) := logins environ P fs w1 in
               (r :: rs, w2)
  end.

Definition invalid_credentials : Exn :=
  HTTPException 400 "Incorrect email or password".

(** The claims [create_access_token] writes for a subject at a clock
    reading, and the token that carries them. *)
Definition issued_claims (subject : string) (now : Z) : Doc :=
  <["exp" := VInt (timegm now + 8 * 3600)]> {["sub" := VStr subject]}.

Definition issued_token (environ : gmap string string) (P : Primitives)
    (subject : string) (now : Z) : Bearer :=
  Jws ALGORITHM (issued_claims subject now)
      (hmac_sign P (JWT_SECRET environ) ALGORITHM (issued_claims subject now)).

(** The store after [login] has recorded a [last_login]. *)
Definition set_last_login (e : string) (t : Z) (d : Database) : Database :=
  mkDatabase (update_first (VStr e) "last_login" (VDatetime t) (adminuser d))
             (next_id d) (unique_index d).

(** The record [register_admin] builds, the document the store keeps for
    it, and the store after the insertion. *)
Definition new_record (payload : AdminCreate) (hashed : string) : AdminUser :=
  mkAdminUser (payload_email payload) hashed "admin"
    (Some (str_or (payload_name payload) (split_at_0 (payload_email payload))))
    None true.

Definition stored (d : Database) (u : AdminUser) : Doc :=
  <["_id" := VObjectId (next_id d)]> (model_dump u).

Definition inserted (d : Database) (u : AdminUser) : Database :=
  mkDatabase (adminuser d ++ [stored d u]) (S (next_id d)) (unique_index d).

(** Whether a string contains the character ['@']. *)
Fixpoint has_at (s : string) : bool :=
  match s with
  | EmptyString => false
  | String c rest => Ascii.eqb c "@"%char || has_at rest
  end.

(** The two ways credentials can fail to match at [login]. *)
Inductive credential_mismatch (P : Primitives) (form : OAuth2PasswordRequestForm)
    (w : World) : Prop :=
| unknown_email :
    lookup_email (username form) w = None ->
    credential_mismatch P form w
| wrong_password user :
    lookup_email (username form) w = Some user ->
    verify_password P (password form) (default (VStr "") (user !! "password_hash")) = Ok false ->
    credential_mismatch P form w.

(** The credentials of a login form pass verification. *)
Definition credentials_verified (P : Primitives) (form : OAuth2PasswordRequestForm)
    (w : World) : Prop :=
  exists user,
    lookup_email (username form) w = Some user /\
    verify_password P (password form) (default (VStr "") (user !! "password_hash")) = Ok true.

(** The causes for which [get_current_admin] turns a request down on the
    token alone: the token codec refuses the token (it is malformed, its
    signature does not verify, it has expired or a claim is invalid), or
    the claims name no subject. *)
Inductive rejection_cause (environ : gmap string string) (P : Primitives)
    (token : Bearer) (w : World) : Prop :=
| malformed_token raw :
    token = NotJws raw ->
    rejection_cause environ P token w
| bad_signature alg claims signature :
    token = Jws alg claims signature ->
    alg <> ALGORITHM \/ signature <> hmac_sign P (JWT_SECRET environ) alg claims ->
    rejection_cause environ P token w
| refused_by_codec kind :
    (jwt_decode P token (JWT_SECRET environ) [ALGORITHM] w).1 = Raise (JWTError kind) ->
    rejection_cause environ P token w
| missing_subject claims :
    (jwt_decode P token (JWT_SECRET environ) [ALGORITHM] w).1 = Ok claims ->
    claims !! "sub" = None ->
    rejection_cause environ P token w.

(** The token is in order and names a subject: the codec accepts it and
    its claims carry the subject. *)
Definition names_subject (environ : gmap string string) (P : Primitives)
    (token : Bearer) (subject : string) (w : World) : Prop :=
  exists claims,
    (jwt_decode P token (JWT_SECRET environ) [ALGORITHM] w).1 = Ok claims /\
    claims !! "sub" = Some (VStr subject).

(** A handler that leaves the identity store as it found it. *)
Definition keeps_db {A} (m : M A) : Prop := forall w, db (m w).2 = db w.

(** ** A test double for the primitives, and the worlds of the examples *)

Module Demo.

(** Integers are rendered in binary, least significant digit first. *)
Fixpoint render_positive (p : positive) : string :=
  match p with
  | xH => "1"
  | xO q => String "0" (render_positive q)
  | xI q => String "1" (render_positive q)
  end.

Definition render_Z (n : Z) : string :=
  match n with
  | Z0 => "0"
  | Zpos p => render_positive p
  | Zneg p => String "-" (render_positive p)
  end.

Definition render_value (v : Value) : string :=
  match v with
  | VNone => "null"
  | VBool b => if b then "true" else "false"
  | VInt n => render_Z n
  | VStr s => s
  | VDatetime t => render_Z t
  | VObjectId n => render_Z (Z.of_nat n)
  end.

Definition render (c : Doc) : string :=
  foldr (fun kv acc => kv.1 +:+ "=" +:+ render_value kv.2 +:+ ";" +:+ acc) ""
        (map_to_list c).

(** Salts are 22 characters long, as bcrypt's are; the "digest" of the
    double is the secret itself, written after the salt. *)
Definition hash (salt secret : string) : Result string :=
  Ok ("$2b$12$" +:+ salt +:+ secret).

Definition verify (secret h : string) : Result bool :=
  Ok (String.eqb (substring 29 (String.length h - 29) h) secret).

Definition sign (key alg : string) (c : Doc) : string :=
  key +:+ "." +:+ alg +:+ "." +:+ render c.

Definition primitives : Primitives := mkPrimitives hash verify sign.

(** One millisecond passes between two interactions. *)
Definition clock (n : nat) : Z := 1700000000000000 + Z.of_nat n * 1000.

Definition salts (n : nat) : string := "saltsaltsaltsaltsaltsa".

Definition empty_world : World :=
  mkWorld (Some (mkDatabase [] 0 false)) 0 clock salts (fun _ => false).

Definition alice : AdminCreate := mkAdminCreate "a@x.com" "pw123456" (Some "Alice").

(** Scenario A: Alice has registered. *)
Definition registration : Result Token * World :=
  register_admin ∅ primitives alice empty_world.

Definition world_alice : World := snd registration.

Definition token_alice : Bearer :=
  match fst registration with
  | Ok t => access_token t
  | Raise _ => NotJws ""
  end.

Definition alice_hash : string := "$2b$12$saltsaltsaltsaltsaltsapw123456".

Definition alice_record : AdminUser :=
  mkAdminUser "a@x.com" alice_hash "admin" (Some "Alice") None true.

Definition alice_doc : Doc := stored (mkDatabase [] 0 false) alice_record.

Definition login_alice : OAuth2PasswordRequestForm := mkForm "a@x.com" "pw123456".

(** Registering with an empty name. *)
Definition nameless : AdminCreate := mkAdminCreate "a@x.com" "pw123456" (Some "").

(** The same store, unreachable from the given tick on. *)
Definition failing_from (n : nat) (w : World) : World :=
  mkWorld (db w) (tick w) (utcnow_at w) (urandom_at w) (fun k => bool_decide (n ≤ k)%nat).

(** Scenario A has consumed four ticks; a login then looks the user up at
    tick 4, reads the clock at ticks 5 and 6 and updates at tick 7. *)
Definition world_update_fails : World := failing_from 7 world_alice.

(** The same world with the clock nine hours ahead. *)
Definition nine_hours_later (w : World) : World :=
  mkWorld (db w) (tick w) (fun n => utcnow_at w n + 9 * 3600 * 1000000)
          (urandom_at w) (store_fails_at w).

(** A store whose only document has lost its [password_hash]. *)
Definition doc_no_hash : Doc := {[ "_id" := VObjectId 0; "email" := VStr "a@x.com" ]}.

Definition world_no_hash : World :=
  mkWorld (Some (mkDatabase [doc_no_hash] 1 false)) 0 clock salts (fun _ => false).

(** Tokens for requests that must fail: one with a made-up signature, one
    that is signed but names no subject, one for an unregistered email. *)
Definition forged_token : Bearer :=
  Jws "HS256" (issued_claims "a@x.com" (clock 3)) "forged".

Definition anonymous_claims : Doc := {["exp" := VInt 99999999999]}.

Definition anonymous_token : Bearer :=
  Jws ALGORITHM anonymous_claims (sign (JWT_SECRET ∅) ALGORITHM anonymous_claims).

Definition ghost_token : Bearer := issued_token ∅ primitives "ghost@x.com" (clock 0).

End Demo.

(** ** The content routes of main.py

    The request models [BlogCreate], [LogoCreate] and [CaseCreate] of
    main.py and the collection models [BlogPost], [PartnerLogo] and
    [CaseStudy] of schemas.py. *)

Module BlogCreate.
Record t := mk {
  title : string;
  slug : string;
  excerpt : option string;
  content : string;
  featured_image : option string;
  meta_title : option string;
  meta_description : option string;
  status : string;
  categories : list string;
  tags : list string
}.
End BlogCreate.

Module BlogPost.
Record t := mk {
  title : string;
  slug : string;
  excerpt : option string;
  content : string;
  featured_image : option string;
  meta_title : option string;
  meta_description : option string;
  status : string;
  categories : list string;
  tags : list string;
  published_at : option Z
}.
End BlogPost.

Module LogoCreate.
Record t := mk {
  name : string;
  image_url : string;
  alt : string;
  link : option string;
  order : Z;
  is_active : bool
}.
End LogoCreate.

Module PartnerLogo.
Record t := mk {
  name : string;
  image_url : string;
  alt : string;
  link : option string;
  order : Z;
  is_active : bool
}.
End PartnerLogo.

Module CaseCreate.
Record t := mk {
  title : string;
  slug : string;
  client : string;
  project_date : option Z;
  description : option string;
  featured_image : option string;
  content : option string;
  tags : list string;
  gallery : list string;
  status : string
}.
End CaseCreate.

Module CaseStudy.
Record t := mk {
  title : string;
  slug : string;
  client : string;
  project_date : option Z;
  description : option string;
  featured_image : option string;
  content : option string;
  tags : list string;
  gallery : list string;
  status : string
}.
End CaseStudy.

(** The collection models, built from the keyword arguments a request
    model dumps: every field is passed on, and [published_at], which
    [BlogCreate] does not have, takes its default. *)
Definition BlogPost_of (item : BlogCreate.t) : BlogPost.t :=
  BlogPost.mk (BlogCreate.title item) (BlogCreate.slug item) (BlogCreate.excerpt item)
    (BlogCreate.content item) (BlogCreate.featured_image item) (BlogCreate.meta_title item)
    (BlogCreate.meta_description item) (BlogCreate.status item) (BlogCreate.categories item)
    (BlogCreate.tags item) None.

Definition PartnerLogo_of (item : LogoCreate.t) : PartnerLogo.t :=
  PartnerLogo.mk (LogoCreate.name item) (LogoCreate.image_url item) (LogoCreate.alt item)
    (LogoCreate.link item) (LogoCreate.order item) (LogoCreate.is_active item).

Definition CaseStudy_of (item : CaseCreate.t) : CaseStudy.t :=
  CaseStudy.mk (CaseCreate.title item) (CaseCreate.slug item) (CaseCreate.client item)
    (CaseCreate.project_date item) (CaseCreate.description item)
    (CaseCreate.featured_image item) (CaseCreate.content item) (CaseCreate.tags item)
    (CaseCreate.gallery item) (CaseCreate.status item).

Inductive Model :=
| ABlogPost (post : BlogPost.t)
| APartnerLogo (logo : PartnerLogo.t)
| ACaseStudy (study : CaseStudy.t).

(** The two functions of the database module the content routes call,
    [create_document(collection, model)] and [get_documents(collection,
    filter)]. The module is not among the source files; the routes are
    modelled over any behaviour of the two. *)
Record DatabaseModule := mkDatabaseModule {
  db_create_document : string -> Model -> M unit;
  db_get_documents : string -> Doc -> M (list Doc)
}.

(** Python's [<] on the values a sort key can take: integers and booleans
    compare as numbers, strings by code point, datetimes among themselves
    and object ids among themselves; [None] and values of two different
    kinds do not compare. *)
Definition as_number (v : Value) : option Z :=
  match v with
  | VInt n => Some n
  | VBool b => Some (if b then 1 else 0)
  | _ => None
  end.

Definition py_lt (a b : Value) : Result bool :=
  match a, b with
  | VStr s, VStr t => Ok (String.ltb s t)
  | VDatetime s, VDatetime t => Ok (s <? t)
  | VObjectId m, VObjectId n => Ok (m <? n)%nat
  | _, _ => match as_number a, as_number b with
            | Some m, Some n => Ok (m <? n)
            | _, _ => Raise TypeError
            end
  end.

(** [sorted(docs, key=key)]: a stable sort that decides by [<] on the keys
    alone and raises what a comparison raises. An element is put in front
    of the sorted rest, behind the elements whose key is smaller. *)
Fixpoint insort (key : Doc -> Value) (x : Doc) (l : list Doc) : Result (list Doc) :=
  match l with
  | [] => Ok [x]
  | y :: l' =>
      rbind (py_lt (key y) (key x)) (fun smaller =>
        if (smaller : bool) then rbind (insort key x l') (fun r => Ok (y :: r))
        else Ok (x :: y :: l'))
  end.

Definition sorted (key : Doc -> Value) (docs : list Doc) : Result (list Doc) :=
  foldr (fun x acc => rbind acc (insort key x)) (Ok []) docs.

(** [lambda x: x.get("order", 0)] *)
Definition order_key (x : Doc) : Value := default (VInt 0) (x !! "order").

(** [{"status": status} if status else {}]: [None] and the empty string
    are falsy. *)
Definition status_filter (status : option string) : Doc :=
  match status with
  | Some EmptyString | None => ∅
  | Some s => {["status" := VStr s]}
  end.

(** [{"is_active": active} if active is not None else {}] *)
Definition active_filter (active : option bool) : Doc :=
  match active with
  | Some b => {["is_active" := VBool b]}
  | None => ∅
  end.

Section Content.

(** The database module, and Python's [str] on values that are not
    strings already. *)
Variable D : DatabaseModule.
Variable repr : Value -> string.
Variable environ : gmap string string.
Variable P : Primitives.

(** [str(v)] *)
Definition py_str (v : Value) : string :=
  match v with
  | VStr s => s
  | _ => repr v
  end.

(** [d["id"] = str(d.pop("_id", ""))] *)
Definition with_id (d : Doc) : Doc :=
  <["id" := VStr (py_str (default (VStr "") (d !! "_id")))]> (delete "_id" d).

Definition create_blog (item : BlogCreate.t) (token : Bearer) : M Doc :=
  admin <- get_current_admin environ P token ;;
  db_create_document D "blogpost" (ABlogPost (BlogPost_of item)) ;;;
  ret {["ok" := VBool true]}.

Definition list_blog (status : option string) : M (list Doc) :=
  let flt := status_filter status in
  docs <- db_get_documents D "blogpost" flt ;;
  ret (map with_id docs).

Definition create_logo (item : LogoCreate.t) (token : Bearer) : M Doc :=
  admin <- get_current_admin environ P token ;;
  db_create_document D "partnerlogo" (APartnerLogo (PartnerLogo_of item)) ;;;
  ret {["ok" := VBool true]}.

Definition list_logos (active : option bool) : M (list Doc) :=
  let flt := active_filter active in
  docs <- db_get_documents D "partnerlogo" flt ;;
  docs <- lift (sorted order_key docs) ;;
  ret (map with_id docs).

Definition create_case (item : CaseCreate.t) (token : Bearer) : M Doc :=
  admin <- get_current_admin environ P token ;;
  db_create_document D "casestudy" (ACaseStudy (CaseStudy_of item)) ;;;
  ret {["ok" := VBool true]}.

Definition list_cases (status : option string) : M (list Doc) :=
  let flt := status_filter status in
  docs <- db_get_documents D "casestudy" flt ;;
  ret (map with_id docs).

End Content.

(** ** What the further properties speak of *)

(** The claims of a token issued with an explicit lifetime, and the token. *)
Definition claims_with_lifetime (subject : string) (now delta : Z) : Doc :=
  <["exp" := VInt (timegm (now + delta))]> {["sub" := VStr subject]}.

Definition token_with_lifetime (environ : gmap string string) (P : Primitives)
    (subject : string) (now delta : Z) : Bearer :=
  Jws ALGORITHM (claims_with_lifetime subject now delta)
      (hmac_sign P (JWT_SECRET environ) ALGORITHM (claims_with_lifetime subject now delta)).

(** Outside of the range of [datetime], [datetime + timedelta] raises
    [OverflowError]. *)
Definition in_datetime_range (t : Z) : Prop := datetime_min <= t <= datetime_max.

(** The values [<] compares with one another. *)
Inductive Kind := Number | Text | Date | Oid.

#[global] Instance Kind_eq_dec : EqDecision Kind.
Proof. solve_decision. Defined.

Definition kind_of (v : Value) : option Kind :=
  match v with
  | VNone => None
  | VBool _ | VInt _ => Some Number
  | VStr _ => Some Text
  | VDatetime _ => Some Date
  | VObjectId _ => Some Oid
  end.

(** The integer a document is ordered by, when its key is one. *)
Definition order_of (d : Doc) : Z := default 0 (as_number (order_key d)).

(** What a listing does to a document: [_id] is gone, [id] holds its
    string (the empty string when there was no [_id]), and every other
    field is as the store returned it. *)
Definition renamed (repr : Value -> string) (d r : Doc) : Prop :=
  r !! "_id" = None /\
  r !! "id" = Some (VStr (match d !! "_id" with
                          | Some v => py_str repr v
                          | None => ""
                          end)) /\
  forall k, k <> "id" -> k <> "_id" -> r !! k = d !! k.

(** Every document is ordered by a number; all documents are ordered by
    values of one kind. *)
Definition numeric (docs : list Doc) : Prop :=
  Forall (fun d => is_Some (as_number (order_key d))) docs.

Definition same_kind (docs : list Doc) : Prop :=
  exists k, Forall (fun d => kind_of (order_key d) = Some k) docs.

(** Sorted by ascending order, and stably: documents of equal order keep
    the sequence they had. *)
Definition ascending (docs : list Doc) : Prop :=
  StronglySorted (fun a b => order_of a <= order_of b) docs.

Definition same_order_within_ties (l r : list Doc) : Prop :=
  forall k : Z, filter (fun d => order_of d = k) r = filter (fun d => order_of d = k) l.

(** Test doubles for the content routes: a database module that answers
    every query with the same documents and accepts every write, and one
    that refuses everything. *)
Module DemoContent.

Definition serving (docs : list Doc) : DatabaseModule :=
  mkDatabaseModule (fun _ _ => ret tt) (fun _ _ => ret docs).

Definition repr (v : Value) : string := Demo.render_value v.

Definition logo (id : nat) (name : string) (order : Value) : Doc :=
  {[ "_id" := VObjectId id; "name" := VStr name; "order" := order ]}.

Definition logos : list Doc :=
  [logo 0 "c" (VInt 2); logo 1 "a" (VInt 1); logo 2 "d" (VInt 2); logo 3 "b" (VInt 1)].

(** Logos whose orders are of two kinds. *)
Definition mixed_logos : list Doc := [logo 0 "a" (VInt 1); logo 1 "b" (VStr "first")].

Definition post : BlogCreate.t :=
  BlogCreate.mk "Hello" "hello" None "<p>Hi</p>" None None None "draft" [] [].

(** Alice's world without a configured database. *)
Definition world_unconfigured : World :=
  mkWorld None 0 Demo.clock Demo.salts (fun _ => false).

End DemoContent.

(** * Properties *)

(** ** Running the monad *)

Lemma bind_run {A B} (m : M A) (k : A -> M B) w :
  bind m k w = match m w with
               | (Ok a, w') => k a w'
               | (Raise e, w') => (Raise e, w')
               end.
Proof. reflexivity. Qed.

Lemma lift_run {A} (r : Result A) w : lift r w = (r, w).
Proof. reflexivity. Qed.

Lemma ret_run {A} (a : A) w : ret a w = (Ok a, w).
Proof. reflexivity. Qed.

Lemma raise_run {A} e w : @raise A e w = (Raise e, w).
Proof. reflexivity. Qed.

Lemma utcnow_run w : utcnow w = (Ok (utcnow_at w (tick w)), advance w).
Proof. reflexivity. Qed.

Lemma urandom_run w : urandom w = (Ok (urandom_at w (tick w)), advance w).
Proof. reflexivity. Qed.

Ltac mrun :=
  repeat progress
    (rewrite ?bind_run, ?lift_run, ?ret_run, ?raise_run, ?utcnow_run, ?urandom_run;
     cbv beta iota).

(** ** The store *)

Lemma store_op_unconfigured {A} (op : Database -> Result A * Database) w :
  db w = None -> store_op op w = (Raise TypeError, w).
Proof. intros H. unfold store_op. by rewrite H. Qed.

Lemma store_op_unreachable {A} (op : Database -> Result A * Database) w d :
  db w = Some d -> store_fails_at w (tick w) = true ->
  store_op op w = (Raise PyMongoError, advance w).
Proof. intros H1 H2. unfold store_op. by rewrite H1, H2. Qed.

Lemma store_op_reachable {A} (op : Database -> Result A * Database) w d :
  db w = Some d -> store_fails_at w (tick w) = false ->
  store_op op w = ((op d).1, with_db (op d).2 (advance w)).
Proof. intros H1 H2. unfold store_op. rewrite H1, H2. by destruct (op d). Qed.

Lemma with_db_same w d : db w = Some d -> with_db d (advance w) = advance w.
Proof. intros H. unfold with_db, advance. simpl. by rewrite H. Qed.

Lemma find_one_reachable v w :
  reachable w -> find_one v w = (Ok (List.find (matches v) (documents w)), advance w).
Proof.
  intros [[d Hd] Hup]. unfold find_one, documents.
  rewrite (store_op_reachable _ w d Hd Hup). simpl. rewrite Hd.
  by rewrite with_db_same.
Qed.

Lemma matches_found v d : matches v d = true -> v <> VNone -> d !! "email" = Some v.
Proof.
  unfold matches. destruct v; try congruence; intros H _; by apply bool_decide_eq_true in H.
Qed.

(** A document found by its email is not the empty dictionary. *)
Lemma found_truthy v docs d :
  v <> VNone -> List.find (matches v) docs = Some d -> truthy (Some d) = true.
Proof.
  intros Hv Hf. apply find_some in Hf as [_ Hm]. apply matches_found in Hm; [|done].
  unfold truthy. apply negb_true_iff, bool_decide_eq_false. intros ->.
  by rewrite lookup_empty in Hm.
Qed.

Lemma lookup_email_found e w user :
  lookup_email e w = Some user -> user !! "email" = Some (VStr e) /\ user ∈ documents w.
Proof.
  unfold lookup_email. intros H. apply find_some in H as [Hin Hm].
  split; [by apply matches_found in Hm|by apply list_elem_of_In].
Qed.

Lemma find_none_existsb {A} (f : A -> bool) l : List.find f l = None -> existsb f l = false.
Proof.
  induction l as [|a l IH]; [done|]. simpl. destruct (f a); [done|]. exact IH.
Qed.

Lemma model_dump_email u : model_dump u !! "email" = Some (VStr (email u)).
Proof. unfold model_dump. apply lookup_insert_eq. Qed.

(** After the lookup of [register_admin] has found nothing, the insertion
    goes through, whether or not the store enforces uniqueness. *)
Lemma insert_one_fresh d u :
  List.find (matches (VStr (email u))) (adminuser d) = None ->
  insert_one (model_dump u) d = (Ok tt, inserted d u).
Proof.
  intros H. unfold insert_one. rewrite model_dump_email. simpl default.
  rewrite (find_none_existsb _ _ H), andb_false_r. reflexivity.
Qed.

(** ** Tokens *)

Lemma timegm_default_lifetime now :
  timegm (now + timedelta_or None (timedelta_minutes ACCESS_TOKEN_EXPIRE_MINUTES))
  = timegm now + 8 * 3600.
Proof.
  unfold timegm, timedelta_or, timedelta_minutes, ACCESS_TOKEN_EXPIRE_MINUTES.
  replace (60 * 8 * 60 * 1000000) with ((8 * 3600) * 1000000) by lia.
  rewrite Z.div_add by lia. reflexivity.
Qed.

Lemma jwt_encode_sub_exp P s t key alg :
  jwt_encode P (<["exp" := VDatetime t]> {["sub" := VStr s]}) key alg
  = Ok (Jws alg (<["exp" := VInt (timegm t)]> {["sub" := VStr s]})
            (hmac_sign P key alg (<["exp" := VInt (timegm t)]> {["sub" := VStr s]}))).
Proof.
  unfold jwt_encode.
  rewrite alter_insert_eq. simpl numeric_date.
  rewrite !alter_insert_ne by done.
  rewrite !alter_singleton_ne by done.
  assert (json_serialisable (<["exp" := VInt (timegm t)]> {["sub" := VStr s]}) = true) as ->.
  { apply bool_decide_eq_true. apply map_Forall_insert_2; [done|].
    by apply map_Forall_singleton. }
  reflexivity.
Qed.

Lemma create_access_token_sub environ P s w :
  create_access_token environ P {["sub" := VStr s]} None w
  = (Ok (issued_token environ P s (utcnow_at w (tick w))), advance w).
Proof.
  unfold create_access_token, issued_token, issued_claims. mrun.
  rewrite jwt_encode_sub_exp, timegm_default_lifetime. reflexivity.
Qed.

Lemma validate_claims_issued s e w :
  validate_claims (<["exp" := VInt e]> {["sub" := VStr s]}) w
  = if e <? timegm (utcnow_at w (tick w))
    then (Raise (JWTError ExpiredSignatureError), advance w)
    else (Ok tt, advance w).
Proof.
  unfold validate_claims, validate_iat, validate_nbf, validate_exp, validate_absent,
    int_claim, str_claim, bind, lift, ret, raise, utcnow.
  rewrite !lookup_insert_eq.
  rewrite !(lookup_insert_ne _ "exp") by done.
  rewrite !lookup_singleton_eq.
  rewrite !lookup_singleton_ne by done.
  cbn [py_int]. by destruct (e <? _).
Qed.

Lemma jwt_decode_signed P c key w :
  jwt_decode P (Jws ALGORITHM c (hmac_sign P key ALGORITHM c)) key [ALGORITHM] w
  = (validate_claims c ;;; ret c) w.
Proof.
  unfold jwt_decode.
  rewrite (bool_decide_eq_true_2 (ALGORITHM ∈ [ALGORITHM])) by apply list_elem_of_here.
  rewrite (bool_decide_eq_true_2 (_ = _)) by reflexivity.
  reflexivity.
Qed.

Ltac run_validate :=
  unfold validate_claims, validate_iat, validate_nbf, validate_exp, validate_absent,
    int_claim, str_claim, bind, lift, ret, raise, utcnow.

Lemma py_int_raises v e : py_int v = Raise e -> e = ValueError \/ e = TypeError.
Proof. destruct v; simpl; try destruct (int_of_str _); intros [= <-]; auto. Qed.

Lemma int_claim_raises c key e :
  int_claim c key = Raise e -> is_JWTError e = true \/ e = TypeError.
Proof.
  unfold int_claim. destruct (c !! key) as [v|]; [|done].
  pose proof (py_int_raises v) as Hv. destruct (py_int v) as [n|e']; [done|].
  destruct (Hv e' eq_refl) as [-> | ->]; intros [= <-]; auto.
Qed.

(** The codec raises its own family of errors, and the [TypeError] of a
    time claim that is no number. *)
Lemma validate_claims_raises c w e :
  (validate_claims c w).1 = Raise e -> is_JWTError e = true \/ e = TypeError.
Proof.
  pose proof (int_claim_raises c "iat") as Hiat.
  pose proof (int_claim_raises c "nbf") as Hnbf.
  pose proof (int_claim_raises c "exp") as Hexp.
  unfold validate_claims, validate_iat, validate_nbf, validate_exp, validate_absent,
    str_claim, bind, lift, ret, raise, utcnow.
  destruct (int_claim c "iat") as [?|?]; [|intros [= <-]; by apply Hiat].
  destruct (int_claim c "nbf") as [[?|]|?]; [| |intros [= <-]; by apply Hnbf].
  all: destruct (int_claim c "exp") as [[?|]|?]; try (intros [= <-]; by apply Hexp).
  all: intros H; repeat (case_match; simplify_eq/=; try done); auto.
Qed.

(** A subject that passed validation is a string. *)
Lemma validate_claims_ok_sub c w :
  (validate_claims c w).1 = Ok tt -> c !! "sub" = None \/ exists s, c !! "sub" = Some (VStr s).
Proof.
  unfold validate_claims. unfold bind at 1 2 3 4 5. intros H.
  repeat (case_match; simplify_eq/=; try done).
  all: unfold lift, str_claim in *; repeat (case_match; simplify_eq/=; try done); eauto.
Qed.

Lemma jwt_decode_raises P tok key algs w e :
  (jwt_decode P tok key algs w).1 = Raise e -> is_JWTError e = true \/ e = TypeError.
Proof.
  unfold jwt_decode. destruct tok as [alg c sig|raw]; [|intros [= <-]; by left].
  destruct (negb _); [intros [= <-]; by left|].
  destruct (negb _); [intros [= <-]; by left|].
  unfold bind, ret. pose proof (validate_claims_raises c w) as Hv.
  destruct (validate_claims c w) as [[[]|e'] w1]; simpl in *; [done|].
  intros [= <-]. by apply Hv.
Qed.

Lemma jwt_decode_ok_sub P tok key algs w c :
  (jwt_decode P tok key algs w).1 = Ok c ->
  c !! "sub" = None \/ exists s, c !! "sub" = Some (VStr s).
Proof.
  unfold jwt_decode. destruct tok as [alg c' sig|raw]; [|done].
  destruct (negb _); [done|]. destruct (negb _); [done|].
  unfold bind, ret. pose proof (validate_claims_ok_sub c' w) as Hv.
  destruct (validate_claims c' w) as [[[]|e'] w1]; simpl in *; [|done].
  intros [= <-]. by apply Hv.
Qed.

(** ** Handlers that leave the store alone *)

Lemma keeps_db_ret {A} (a : A) : keeps_db (ret a).
Proof. by intros w. Qed.

Lemma keeps_db_raise {A} e : keeps_db (@raise A e).
Proof. by intros w. Qed.

Lemma keeps_db_lift {A} (r : Result A) : keeps_db (lift r).
Proof. by intros w. Qed.

Lemma keeps_db_utcnow : keeps_db utcnow.
Proof. by intros w. Qed.

Lemma keeps_db_urandom : keeps_db urandom.
Proof. by intros w. Qed.

Lemma keeps_db_bind {A B} (m : M A) (k : A -> M B) :
  keeps_db m -> (forall a, keeps_db (k a)) -> keeps_db (bind m k).
Proof.
  intros Hm Hk w. unfold bind. specialize (Hm w).
  destruct (m w) as [[a|e] w1]; simpl in *; [by rewrite Hk|done].
Qed.

Lemma keeps_db_except {A} (m : M A) e : keeps_db m -> keeps_db (except_JWTError m e).
Proof.
  intros Hm w. unfold except_JWTError. specialize (Hm w).
  destruct (m w) as [[a|e'] w1]; simpl in *; [done|]. by destruct (is_JWTError e').
Qed.

Lemma keeps_db_db_truth : keeps_db db_truth.
Proof. intros w. unfold db_truth. by destruct (db w) eqn:Hd. Qed.

Lemma keeps_db_find_one v : keeps_db (find_one v).
Proof.
  intros w. unfold find_one, store_op. destruct (db w) as [d|] eqn:Hd; [|done].
  by destruct (store_fails_at w (tick w)).
Qed.

Create HintDb keeps_db.
#[local] Hint Resolve keeps_db_ret keeps_db_raise keeps_db_lift keeps_db_utcnow
  keeps_db_urandom keeps_db_except keeps_db_db_truth keeps_db_find_one : keeps_db.
#[local] Hint Extern 2 (keeps_db (bind _ _)) => apply keeps_db_bind; [|intros ?] : keeps_db.
#[local] Hint Extern 3 (keeps_db (match ?x with _ => _ end)) => destruct x : keeps_db.
#[local] Hint Extern 3 (keeps_db (if ?x then _ else _)) => destruct x : keeps_db.

Lemma keeps_db_validate_claims c : keeps_db (validate_claims c).
Proof.
  unfold validate_claims, validate_iat, validate_nbf, validate_exp, validate_absent.
  auto 20 with keeps_db.
Qed.

Lemma keeps_db_jwt_decode P tok key algs : keeps_db (jwt_decode P tok key algs).
Proof.
  unfold jwt_decode. pose proof keeps_db_validate_claims.
  destruct tok; auto 20 with keeps_db.
Qed.

Lemma keeps_db_create_access_token environ P data delta :
  keeps_db (create_access_token environ P data delta).
Proof. unfold create_access_token. auto 20 with keeps_db. Qed.

(** Request authentication only reads. *)
Lemma keeps_db_get_current_admin environ P tok : keeps_db (get_current_admin environ P tok).
Proof.
  unfold get_current_admin. pose proof keeps_db_jwt_decode.
  auto 20 with keeps_db.
Qed.

(** ** The three handlers, run *)

(** The lookup is never reached: with a database configured the truth
    test of the handle raises, and without one there is no user. *)
Lemma get_current_admin_run environ P tok w :
  get_current_admin environ P tok w =
  match jwt_decode P tok (JWT_SECRET environ) [ALGORITHM] w with
  | (Raise e, w1) => (Raise (if is_JWTError e then credentials_exception else e), w1)
  | (Ok claims, w1) =>
      match claims !! "sub" with
      | None => (Raise credentials_exception, w1)
      | Some _ =>
          match db w1 with
          | None => (Raise credentials_exception, w1)
          | Some _ => (Raise NotImplementedError, w1)
          end
      end
  end.
Proof.
  unfold get_current_admin, except_JWTError. unfold bind at 1 2.
  pose proof (jwt_decode_ok_sub P tok (JWT_SECRET environ) [ALGORITHM] w) as Hs.
  destruct (jwt_decode P tok (JWT_SECRET environ) [ALGORITHM] w) as [[c|e] w1]; simpl in *.
  - destruct (Hs c eq_refl) as [->|[s ->]]; simpl.
    + reflexivity.
    + unfold ret, bind, db_truth. by destruct (db w1).
  - by destruct (is_JWTError e).
Qed.

Lemma login_run environ P form w d :
  db w = Some d -> store_fails_at w (tick w) = false ->
  login environ P form w =
  match lookup_email (username form) w with
  | None => (Raise invalid_credentials, after 1 w)
  | Some user =>
      match verify_password P (password form) (default (VStr "") (user !! "password_hash")) with
      | Raise e => (Raise e, after 1 w)
      | Ok false => (Raise invalid_credentials, after 1 w)
      | Ok true =>
          if store_fails_at w (3 + tick w)
          then (Raise PyMongoError, after 4 w)
          else (Ok (mkToken (issued_token environ P (username form)
                               (utcnow_at w (1 + tick w))) "bearer"),
                with_db (set_last_login (username form) (utcnow_at w (2 + tick w)) d)
                        (after 4 w))
      end
  end.
Proof.
  intros Hd Hup. unfold login. rewrite bind_run.
  rewrite find_one_reachable by (split; eauto). cbv beta iota.
  fold (lookup_email (username form) w).
  destruct (lookup_email (username form) w) as [user|] eqn:Hfind; [|reflexivity].
  pose proof (lookup_email_found _ _ _ Hfind) as [Hemail _].
  rewrite (found_truthy (VStr (username form)) (documents w) user) by done.
  cbn [negb]. unfold dict_get, getitem. rewrite Hemail. mrun.
  destruct (verify_password _ _ _) as [[|]|e]; mrun; [|reflexivity|reflexivity].
  cbn [negb]. mrun.
  rewrite create_access_token_sub. mrun.
  unfold update_one. cbv zeta. simpl tick. simpl utcnow_at. cbn [Nat.add].
  destruct (store_fails_at w (S (S (S (tick w))))) eqn:Hf.
  - rewrite (store_op_unreachable _ _ d); [reflexivity|done|done].
  - rewrite (store_op_reachable _ _ d); [|done|done]. reflexivity.
Qed.

Lemma AdminUser_init_kwargs e h n :
  AdminUser_init (<["email" := VStr e]> (<["password_hash" := VStr h]> (<["name" := VStr n]> ∅)))
  = Ok (mkAdminUser e h "admin" (Some n) None true).
Proof. vm_compute. reflexivity. Qed.

Lemma register_admin_run environ P payload w d :
  db w = Some d -> store_fails_at w (tick w) = false ->
  register_admin environ P payload w =
  match lookup_email (payload_email payload) w with
  | Some _ => (Raise (HTTPException 400 "Email already registered"), after 1 w)
  | None =>
      match bcrypt_hash P (urandom_at w (1 + tick w)) (payload_password payload) with
      | Raise e => (Raise e, after 2 w)
      | Ok hashed =>
          if store_fails_at w (2 + tick w)
          then (Raise PyMongoError, after 3 w)
          else (Ok (mkToken (issued_token environ P (payload_email payload)
                               (utcnow_at w (3 + tick w))) "bearer"),
                with_db (inserted d (new_record payload hashed)) (after 4 w))
      end
  end.
Proof.
  intros Hd Hup. unfold register_admin. rewrite bind_run.
  rewrite find_one_reachable by (split; eauto). cbv beta iota.
  fold (lookup_email (payload_email payload) w).
  destruct (lookup_email (payload_email payload) w) as [user|] eqn:Hfind.
  - rewrite (found_truthy (VStr (payload_email payload)) (documents w) user) by done.
    reflexivity.
  - cbn [truthy]. unfold get_password_hash, pwd_context_hash. mrun.
    simpl tick. simpl urandom_at.
    destruct (bcrypt_hash P _ _) as [hashed|e]; [|reflexivity]. mrun.
    rewrite AdminUser_init_kwargs. mrun. fold (new_record payload hashed).
    unfold create_document. cbv zeta. simpl tick. cbn [Nat.add].
    destruct (store_fails_at w (S (S (tick w)))) eqn:Hf.
    + rewrite (store_op_unreachable _ _ d); [reflexivity|done|done].
    + rewrite (store_op_reachable _ _ d); [|done|done].
      rewrite insert_one_fresh.
      2:{ unfold lookup_email, documents in Hfind. by rewrite Hd in Hfind. }
      cbn [fst snd]. mrun. rewrite create_access_token_sub. mrun. reflexivity.
Qed.

(** ** Reading results back *)

Lemma find_one_ok v w o :
  (find_one v w).1 = Ok o -> o = List.find (matches v) (documents w).
Proof.
  unfold find_one, store_op, documents. destruct (db w) as [d|]; [|done].
  destruct (store_fails_at w (tick w)); [done|]. by intros [= <-].
Qed.

Lemma AdminUser_init_ok kw u :
  AdminUser_init kw = Ok u ->
  kw !! "email" = Some (VStr (email u)) /\
  kw !! "password_hash" = Some (VStr (password_hash u)).
Proof.
  unfold AdminUser_init, required_str, rbind.
  destruct (kw !! "email") as [[]|]; try done.
  destruct (kw !! "password_hash") as [[]|]; try done.
  destruct (defaulted_str _ _ _); [|done]. destruct (optional_str _ _); [|done].
  destruct (optional_datetime _ _); [|done]. destruct (defaulted_bool _ _ _); [|done].
  by intros [= <-].
Qed.

Lemma model_dump_password_hash u :
  model_dump u !! "password_hash" = Some (VStr (password_hash u)).
Proof. unfold model_dump. by rewrite lookup_insert_ne, lookup_insert_eq. Qed.

(** ** What the handlers do to the store *)

Lemma login_unconfigured environ P form w :
  db w = None -> login environ P form w = (Raise TypeError, w).
Proof.
  intros H. unfold login. rewrite bind_run. unfold find_one.
  by rewrite store_op_unconfigured.
Qed.

Lemma login_unreachable environ P form w d :
  db w = Some d -> store_fails_at w (tick w) = true ->
  login environ P form w = (Raise PyMongoError, after 1 w).
Proof.
  intros Hd H. unfold login. rewrite bind_run. unfold find_one.
  by rewrite (store_op_unreachable _ _ d).
Qed.

Lemma register_admin_unconfigured environ P payload w :
  db w = None -> register_admin environ P payload w = (Raise TypeError, w).
Proof.
  intros H. unfold register_admin. rewrite bind_run. unfold find_one.
  by rewrite store_op_unconfigured.
Qed.

Lemma register_admin_unreachable environ P payload w d :
  db w = Some d -> store_fails_at w (tick w) = true ->
  register_admin environ P payload w = (Raise PyMongoError, after 1 w).
Proof.
  intros Hd H. unfold register_admin. rewrite bind_run. unfold find_one.
  by rewrite (store_op_unreachable _ _ d).
Qed.

Lemma login_effect environ P form w :
  match (login environ P form w).1 with
  | Ok _ => exists d, db w = Some d /\
      db (login environ P form w).2
      = Some (set_last_login (username form) (utcnow_at w (2 + tick w)) d)
  | Raise _ => db (login environ P form w).2 = db w
  end.
Proof.
  destruct (db w) as [d|] eqn:Hd; [|by rewrite login_unconfigured].
  destruct (store_fails_at w (tick w)) eqn:Hup;
    [by rewrite (login_unreachable _ _ _ _ d)|].
  rewrite (login_run _ _ _ _ d) by done.
  destruct (lookup_email _ _) as [user|]; [|done].
  destruct (verify_password _ _ _) as [[|]|e]; [|done|done].
  destruct (store_fails_at w (3 + tick w)); [done|]. simpl. eauto.
Qed.

Lemma register_admin_effect environ P payload w :
  match (register_admin environ P payload w).1 with
  | Ok _ => exists d hashed,
      db w = Some d /\
      lookup_email (payload_email payload) w = None /\
      bcrypt_hash P (urandom_at w (1 + tick w)) (payload_password payload) = Ok hashed /\
      db (register_admin environ P payload w).2
      = Some (inserted d (new_record payload hashed))
  | Raise _ => db (register_admin environ P payload w).2 = db w
  end.
Proof.
  destruct (db w) as [d|] eqn:Hd; [|by rewrite register_admin_unconfigured].
  destruct (store_fails_at w (tick w)) eqn:Hup;
    [by rewrite (register_admin_unreachable _ _ _ _ d)|].
  rewrite (register_admin_run _ _ _ _ d) by done.
  destruct (lookup_email _ _) as [user|] eqn:Hl; [done|].
  destruct (bcrypt_hash _ _ _) as [hashed|e] eqn:Hh; [|done].
  destruct (store_fails_at w (2 + tick w)); [done|]. simpl. eauto 10.
Qed.

Lemma emails_update_first v x docs :
  emails (update_first v "last_login" x docs) = emails docs.
Proof.
  unfold emails. induction docs as [|d ds IH]; [done|]. simpl update_first.
  destruct (matches v d); csimpl.
  - by rewrite lookup_insert_ne.
  - by rewrite IH.
Qed.

Lemma lookup_email_none_fresh e w :
  lookup_email e w = None -> VStr e ∉ emails (documents w).
Proof.
  unfold lookup_email, emails. intros Hnone Hin.
  apply list_elem_of_omap in Hin as (d & Hd & He).
  apply list_elem_of_In in Hd.
  pose proof (find_none _ _ Hnone d Hd) as Hm.
  unfold matches in Hm. by rewrite bool_decide_eq_true_2 in Hm.
Qed.

Lemma stored_email d u : stored d u !! "email" = Some (VStr (email u)).
Proof. unfold stored. rewrite lookup_insert_ne by done. apply model_dump_email. Qed.

Lemma model_dump_id u : model_dump u !! "_id" = None.
Proof. unfold model_dump. by rewrite !lookup_insert_ne, lookup_empty. Qed.

Lemma AdminUser_init_model_dump u : AdminUser_init (model_dump u) = Ok u.
Proof. destruct u as [e h r [n|] [l|] a]; vm_compute; reflexivity. Qed.

(** The stored document reads back as the record it was made from. *)
Lemma stored_reads_back d u : AdminUser_init (delete "_id" (stored d u)) = Ok u.
Proof.
  unfold stored. rewrite delete_insert_id by apply model_dump_id.
  apply AdminUser_init_model_dump.
Qed.

Lemma split_at_0_app l r :
  has_at l = false -> split_at_0 (l +:+ "@" +:+ r) = l.
Proof.
  induction l as [|c l IH]; [done|]. simpl.
  destruct (Ascii.eqb c "@"); [done|]. simpl. intros H. by rewrite IH.
Qed.

Lemma split_at_0_whole s : has_at s = false -> split_at_0 s = s.
Proof.
  induction s as [|c s IH]; [done|]. simpl.
  destruct (Ascii.eqb c "@"); [done|]. simpl. intros H. by rewrite IH.
Qed.

(** * The claims *)

(** ** Request authentication *)

(** What [get_current_admin] does once the token is in order. *)
Lemma get_current_admin_subject environ P token subject w :
  names_subject environ P token subject w ->
  (get_current_admin environ P token w).1
  = match db w with
    | Some _ => Raise NotImplementedError
    | None => Raise credentials_exception
    end.
Proof.
  intros (claims & Hdec & Hsub). rewrite get_current_admin_run.
  pose proof (keeps_db_jwt_decode P token (JWT_SECRET environ) [ALGORITHM] w) as Hdb.
  destruct (jwt_decode P token (JWT_SECRET environ) [ALGORITHM] w) as [[c|e] w1];
    simplify_eq/=. rewrite Hsub, Hdb. by destruct (db w).
Qed.

Lemma get_current_admin_returns_nothing environ P token w caller :
  (get_current_admin environ P token w).1 <> Ok caller.
Proof.
  rewrite get_current_admin_run.
  destruct (jwt_decode P token (JWT_SECRET environ) [ALGORITHM] w) as [[c|e] w1]; [|done].
  destruct (c !! "sub"); [|done]. by destruct (db w1).
Qed.



(** A bearer string whose algorithm is not the configured one, or whose
    signature is not the one the secret yields, is refused. *)
Lemma jwt_decode_bad_signature P alg claims signature key w :
  alg <> ALGORITHM \/ signature <> hmac_sign P key alg claims ->
  jwt_decode P (Jws alg claims signature) key [ALGORITHM] w = (Raise (JWTError BadSignature), w).
Proof.
  intros H. unfold jwt_decode.
  destruct (bool_decide (alg ∈ [ALGORITHM])) eqn:Halg; [|reflexivity].
  apply bool_decide_eq_true, list_elem_of_singleton in Halg.
  destruct H as [H|H]; [done|]. simpl. by rewrite bool_decide_eq_false_2.
Qed.

(** A token issued for a subject is refused as expired once the clock, in
    whole seconds, has passed its expiry. *)
Lemma issued_token_expires environ P subject issued w :
  timegm issued + 8 * 3600 < timegm (utcnow_at w (tick w)) ->
  (jwt_decode P (issued_token environ P subject issued) (JWT_SECRET environ) [ALGORITHM] w).1
  = Raise (JWTError ExpiredSignatureError).
Proof.
  intros Hlate. unfold issued_token. rewrite jwt_decode_signed, bind_run.
  unfold issued_claims. rewrite validate_claims_issued.
  by rewrite (proj2 (Z.ltb_lt _ _) Hlate).
Qed.

(** C6, at the code: the causes found on the token alone (a malformed
    token, a bad signature, an expired token or another refusal by the
    codec, a missing subject claim) are answered with the same exception:
    status 401, detail "Could not validate credentials". The last cause is
    not: when the token is in order and no identity record exists for its
    subject, a configured database makes the request fail with the
    [NotImplementedError] of the handle's truth test, and the 401 is given
    only when no database is configured. *)
Theorem unknown_subject_is_not_turned_down environ P token w :
  (rejection_cause environ P token w ->
   (get_current_admin environ P token w).1
   = Raise (HTTPException 401 "Could not validate credentials")) /\
  (forall subject,
     names_subject environ P token subject w ->
     lookup_email subject w = None ->
     (is_Some (db w) ->
      (get_current_admin environ P token w).1 = Raise NotImplementedError) /\
     (db w = None ->
      (get_current_admin environ P token w).1
      = Raise (HTTPException 401 "Could not validate credentials"))).
Proof.
  split.
  - intros Hcause. rewrite get_current_admin_run.
    destruct Hcause as [raw ->|alg claims signature -> Hsig|kind Hdec|claims Hdec Hsub].
    + reflexivity.
    + by rewrite jwt_decode_bad_signature.
    + by destruct (jwt_decode _ _ _ _ _) as [[c|e] w1]; simplify_eq/=.
    + destruct (jwt_decode _ _ _ _ _) as [[c|e] w1]; simplify_eq/=. by rewrite Hsub.
  - intros subject Hnames _. rewrite (get_current_admin_subject _ _ _ _ _ Hnames).
    split; [by intros [d ->]|by intros ->].
Qed.

(** One request per cause: four are answered with the 401, the token for
    an unregistered email is not. *)
Lemma unknown_subject_is_not_turned_down_witness :
  let rejected token w :=
    (get_current_admin ∅ Demo.primitives token w).1
    = Raise (HTTPException 401 "Could not validate credentials") in
  rejected (NotJws "not-a-token") Demo.world_alice /\
  rejected Demo.forged_token Demo.world_alice /\
  rejected Demo.token_alice (Demo.nine_hours_later Demo.world_alice) /\
  rejected Demo.anonymous_token Demo.world_alice /\
  lookup_email "ghost@x.com" Demo.world_alice = None /\
  (get_current_admin ∅ Demo.primitives Demo.ghost_token Demo.world_alice).1
  = Raise NotImplementedError.
Proof.
  cbv zeta. refine (conj _ (conj _ (conj _ (conj _ (conj _ _))))).
  - apply unknown_subject_is_not_turned_down. by eapply malformed_token.
  - apply unknown_subject_is_not_turned_down. eapply bad_signature; [reflexivity|].
    right. vm_compute. discriminate.
  - apply unknown_subject_is_not_turned_down.
    apply (refused_by_codec _ _ _ _ ExpiredSignatureError). vm_compute. reflexivity.
  - apply unknown_subject_is_not_turned_down.
    apply (missing_subject _ _ _ _ Demo.anonymous_claims); vm_compute; reflexivity.
  - vm_compute. reflexivity.
  - destruct (unknown_subject_is_not_turned_down ∅ Demo.primitives Demo.ghost_token
                Demo.world_alice) as [_ Hunknown].
    destruct (Hunknown "ghost@x.com") as [Hconfigured _].
    + exists (issued_claims "ghost@x.com" (Demo.clock 0)). split; vm_compute; reflexivity.
    + vm_compute. reflexivity.
    + apply Hconfigured. by eexists.
Defined.

(** ** Tokens *)

(** C5: a token issued with the default lifetime carries, as its expiry,
    the issuance time plus eight hours (in whole seconds, as the token
    stores it); decoded while the clock has not passed that expiry, it is
    accepted and yields the same email as its subject. *)
Theorem token_round_trip environ P (subject : string) (w_issue w_decode : World) :
  exists alg claims signature,
    (create_access_token environ P {["sub" := VStr subject]} None w_issue).1
      = Ok (Jws alg claims signature) /\
    claims !! "exp" = Some (VInt (timegm (utcnow_at w_issue (tick w_issue)) + 8 * 3600)) /\
    (timegm (utcnow_at w_decode (tick w_decode))
       <= timegm (utcnow_at w_issue (tick w_issue)) + 8 * 3600 ->
     (jwt_decode P (Jws alg claims signature) (JWT_SECRET environ) [ALGORITHM] w_decode).1
       = Ok claims /\
     claims !! "sub" = Some (VStr subject)).
Proof.
  rewrite create_access_token_sub. do 3 eexists. split; [reflexivity|].
  unfold issued_claims. split; [apply lookup_insert_eq|].
  intros Hle. rewrite jwt_decode_signed. rewrite bind_run.
  rewrite validate_claims_issued.
  destruct (_ <? _) eqn:Hlt; [apply Z.ltb_lt in Hlt; lia|].
  split; [reflexivity|].
  rewrite lookup_insert_ne by done. apply lookup_singleton_eq.
Qed.

(** A token issued at the epoch second 1700000000 is accepted a few
    milliseconds later. *)
Lemma token_round_trip_witness :
  exists alg claims signature,
    (create_access_token ∅ Demo.primitives {["sub" := VStr "a@x.com"]} None Demo.empty_world).1
      = Ok (Jws alg claims signature) /\
    claims !! "exp" = Some (VInt (1700000000 + 8 * 3600)) /\
    (jwt_decode Demo.primitives (Jws alg claims signature) (JWT_SECRET ∅) [ALGORITHM]
       Demo.world_alice).1 = Ok claims /\
    claims !! "sub" = Some (VStr "a@x.com").
Proof.
  destruct (token_round_trip ∅ Demo.primitives "a@x.com" Demo.empty_world Demo.world_alice)
    as (alg & claims & signature & Hissue & Hexp & Hdecode).
  exists alg, claims, signature. split; [exact Hissue|]. split; [exact Hexp|].
  apply Hdecode. vm_compute. discriminate.
Defined.

(** ** Login *)

(** C7: an unknown email and a password that does not verify fail
    [login] with the same exception: status 400, detail "Incorrect email or
    password". *)
Theorem login_mismatch_uniform environ P form w :
  reachable w ->
  credential_mismatch P form w ->
  (login environ P form w).1 = Raise (HTTPException 400 "Incorrect email or password").
Proof.
  intros [[d Hd] Hup] Hmis. rewrite (login_run _ _ _ _ d) by done.
  destruct Hmis as [Hnone|user Hsome Hverify].
  - by rewrite Hnone.
  - by rewrite Hsome, Hverify.
Qed.

(** Both mismatches against Alice's store. *)
Lemma login_mismatch_uniform_witness :
  (login ∅ Demo.primitives (mkForm "nobody@x.com" "pw123456") Demo.world_alice).1
    = Raise (HTTPException 400 "Incorrect email or password") /\
  (login ∅ Demo.primitives (mkForm "a@x.com" "wrong") Demo.world_alice).1
    = Raise (HTTPException 400 "Incorrect email or password").
Proof.
  assert (reachable Demo.world_alice) as Hreach by (split; [by eexists|reflexivity]).
  split; apply login_mismatch_uniform; try exact Hreach.
  - apply unknown_email. vm_compute. reflexivity.
  - apply (wrong_password _ _ _ Demo.alice_doc); vm_compute; reflexivity.
Defined.

(** C8: a sequence of login attempts that all fail with the 400 of
    invalid credentials leaves the identity store exactly as it was: no
    document is created and no field of any document changes, however long
    the sequence. *)
Theorem failed_logins_leave_store_unchanged environ P forms w :
  Forall (fun r => r = Raise (HTTPException 400 "Incorrect email or password"))
         (logins environ P forms w).1 ->
  db (logins environ P forms w).2 = db w /\
  documents (logins environ P forms w).2 = documents w.
Proof.
  intros H.
  assert (db (logins environ P forms w).2 = db w) as Hdb;
    [|split; [done|unfold documents; by rewrite Hdb]].
  revert w H. induction forms as [|f fs IH]; intros w H; [done|].
  simpl in *. pose proof (login_effect environ P f w) as Heff.
  destruct (login environ P f w) as [r w1]. specialize (IH w1).
  destruct (logins environ P fs w1) as [rs w2]. simpl in *.
  apply Forall_cons in H as [-> Hrs]. rewrite IH by done. exact Heff.
Qed.

(** Three failed attempts in a row. *)
Lemma failed_logins_leave_store_unchanged_witness :
  documents (logins ∅ Demo.primitives
               [mkForm "a@x.com" "wrong"; mkForm "nobody@x.com" "pw123456";
                mkForm "a@x.com" "wrong"] Demo.world_alice).2
  = documents Demo.world_alice.
Proof.
  apply failed_logins_leave_store_unchanged. vm_compute.
  repeat constructor.
Defined.

(** C2, as the code has it: once the credentials have passed
    verification, the outcome of [login] is the outcome of the [last_login]
    update. When the store raises on the update, the error propagates and
    no token is returned; when the update goes through, the issued token
    is returned. *)
Theorem login_fails_when_last_login_update_fails environ P form w :
  reachable w ->
  credentials_verified P form w ->
  (store_fails_at w (3 + tick w) = true ->
     (login environ P form w).1 = Raise PyMongoError) /\
  (store_fails_at w (3 + tick w) = false ->
     (login environ P form w).1
     = Ok (mkToken (issued_token environ P (username form) (utcnow_at w (1 + tick w)))
                   "bearer")).
Proof.
  intros [[d Hd] Hup] (user & Hfind & Hverify).
  rewrite (login_run _ _ _ _ d) by done. rewrite Hfind, Hverify.
  split; intros ->; reflexivity.
Qed.

(** Alice's credentials verify against any world that holds her store. *)
Lemma alice_verified w :
  documents w = documents Demo.world_alice ->
  credentials_verified Demo.primitives Demo.login_alice w.
Proof.
  intros Hdocs. exists Demo.alice_doc. unfold lookup_email. rewrite Hdocs.
  split; vm_compute; reflexivity.
Qed.

(** Alice logs in against a store that fails on the update, and against
    one that does not. *)
Lemma login_fails_when_last_login_update_fails_witness :
  (login ∅ Demo.primitives Demo.login_alice Demo.world_update_fails).1 = Raise PyMongoError /\
  (login ∅ Demo.primitives Demo.login_alice Demo.world_alice).1
  = Ok (mkToken (issued_token ∅ Demo.primitives "a@x.com" (Demo.clock 5)) "bearer").
Proof.
  split.
  - apply (login_fails_when_last_login_update_fails ∅ Demo.primitives Demo.login_alice
             Demo.world_update_fails).
    + split; [by eexists|reflexivity].
    + by apply alice_verified.
    + reflexivity.
  - apply (login_fails_when_last_login_update_fails ∅ Demo.primitives Demo.login_alice
             Demo.world_alice).
    + split; [by eexists|reflexivity].
    + by apply alice_verified.
    + reflexivity.
Defined.

(** C2 as stated fails: Alice's credentials pass verification, the store
    raises on the update of [last_login], and [login] raises with it
    instead of returning the token. *)
Lemma login_not_best_effort :
  credentials_verified Demo.primitives Demo.login_alice Demo.world_update_fails /\
  reachable Demo.world_update_fails /\
  store_fails_at Demo.world_update_fails 7 = true /\
  (login ∅ Demo.primitives Demo.login_alice Demo.world_update_fails).1 = Raise PyMongoError.
Proof.
  split; [by apply alice_verified|]. split; [split; [by eexists|reflexivity]|].
  split; [reflexivity|]. vm_compute. reflexivity.
Qed.

(** C3, where the code departs from it: when the stored record has no
    [password_hash] (so that [login] passes the default [""]) or holds a
    string that is not a bcrypt hash, verification raises instead of
    returning [False], and [login] raises with it instead of answering with
    the 400 of invalid credentials. *)
Theorem login_raises_on_unidentified_hash environ P form w user :
  reachable w ->
  lookup_email (username form) w = Some user ->
  user !! "password_hash" = None \/
    (exists h, user !! "password_hash" = Some (VStr h) /\ bcrypt_identify h = false) ->
  verify_password P (password form) (default (VStr "") (user !! "password_hash"))
    = Raise ValueError /\
  (login environ P form w).1 = Raise ValueError.
Proof.
  intros [[d Hd] Hup] Hfind Hhash.
  assert (verify_password P (password form) (default (VStr "") (user !! "password_hash"))
          = Raise ValueError) as Hverify.
  { destruct Hhash as [->|(h & -> & Hid)]; [reflexivity|].
    simpl. unfold verify_password, pwd_context_verify. by rewrite Hid. }
  split; [exact Hverify|].
  rewrite (login_run _ _ _ _ d) by done. by rewrite Hfind, Hverify.
Qed.

(** A login against a record that has lost its hash. *)
Lemma login_raises_on_unidentified_hash_witness :
  verify_password Demo.primitives (password Demo.login_alice)
    (default (VStr "") (Demo.doc_no_hash !! "password_hash")) = Raise ValueError /\
  (login ∅ Demo.primitives Demo.login_alice Demo.world_no_hash).1 = Raise ValueError.
Proof.
  apply (login_raises_on_unidentified_hash ∅ Demo.primitives Demo.login_alice
           Demo.world_no_hash Demo.doc_no_hash).
  - split; [by eexists|reflexivity].
  - vm_compute. reflexivity.
  - left. vm_compute. reflexivity.
Defined.

(** ** Registration *)

Lemma unique_emails_login environ P form w :
  unique_emails w -> unique_emails (login environ P form w).2.
Proof.
  unfold unique_emails, documents. intros Hw.
  pose proof (login_effect environ P form w) as Heff.
  destruct (login environ P form w).1; [|by rewrite Heff].
  destruct Heff as (d & Hd & ->). rewrite Hd in Hw. simpl.
  by rewrite emails_update_first.
Qed.

Lemma unique_emails_register_admin environ P payload w :
  unique_emails w -> unique_emails (register_admin environ P payload w).2.
Proof.
  unfold unique_emails. intros Hw.
  pose proof (register_admin_effect environ P payload w) as Heff.
  destruct (register_admin environ P payload w).1; [|unfold documents; by rewrite Heff].
  destruct Heff as (d & hashed & Hd & Hnone & _ & Hdb).
  apply lookup_email_none_fresh in Hnone.
  unfold documents in *. rewrite Hdb. rewrite Hd in Hw, Hnone. simpl.
  unfold emails in *. rewrite omap_app. csimpl. rewrite stored_email. csimpl.
  apply NoDup_app. split; [done|]. split; [|apply NoDup_singleton].
  intros x Hx ->%list_elem_of_singleton. done.
Qed.

Lemma unique_emails_get_current_admin environ P token w :
  unique_emails w -> unique_emails (get_current_admin environ P token w).2.
Proof.
  unfold unique_emails, documents. by rewrite keeps_db_get_current_admin.
Qed.

(** C4: email uniqueness is preserved by registration, login and request
    authentication; registering an email that already has a record fails
    with status 400, detail "Email already registered", and leaves the
    store untouched, as does every failed registration; a successful
    registration appends exactly one document, which carries the
    registered email. *)
Theorem registration_keeps_emails_unique environ P w :
  (unique_emails w ->
     (forall payload, unique_emails (register_admin environ P payload w).2) /\
     (forall form, unique_emails (login environ P form w).2) /\
     (forall token, unique_emails (get_current_admin environ P token w).2)) /\
  (forall payload,
     reachable w -> is_Some (lookup_email (payload_email payload) w) ->
     (register_admin environ P payload w).1
       = Raise (HTTPException 400 "Email already registered") /\
     db (register_admin environ P payload w).2 = db w) /\
  (forall payload e,
     (register_admin environ P payload w).1 = Raise e ->
     db (register_admin environ P payload w).2 = db w) /\
  (forall payload token,
     (register_admin environ P payload w).1 = Ok token ->
     exists doc,
       documents (register_admin environ P payload w).2 = (documents w ++ [doc])%list /\
       doc !! "email" = Some (VStr (payload_email payload))).
Proof.
  split; [|split; [|split]].
  - intros Hw. split; [|split]; intros ?.
    + by apply unique_emails_register_admin.
    + by apply unique_emails_login.
    + by apply unique_emails_get_current_admin.
  - intros payload [[d Hd] Hup] [doc Hdoc].
    rewrite (register_admin_run _ _ _ _ d) by done. by rewrite Hdoc.
  - intros payload e He. pose proof (register_admin_effect environ P payload w) as Heff.
    by rewrite He in Heff.
  - intros payload token Hok.
    pose proof (register_admin_effect environ P payload w) as Heff.
    rewrite Hok in Heff. destruct Heff as (d & hashed & Hd & _ & _ & Hdb).
    exists (stored d (new_record payload hashed)). unfold documents.
    rewrite Hdb, Hd. split; [reflexivity|]. apply stored_email.
Qed.

(** Alice registers into an empty store, and then once more. *)
Lemma registration_keeps_emails_unique_witness :
  unique_emails (register_admin ∅ Demo.primitives Demo.alice Demo.empty_world).2 /\
  (register_admin ∅ Demo.primitives Demo.alice Demo.world_alice).1
    = Raise (HTTPException 400 "Email already registered") /\
  db (register_admin ∅ Demo.primitives Demo.alice Demo.world_alice).2 = db Demo.world_alice /\
  (exists doc,
     documents (register_admin ∅ Demo.primitives Demo.alice Demo.empty_world).2
       = (documents Demo.empty_world ++ [doc])%list /\
     doc !! "email" = Some (VStr "a@x.com")).
Proof.
  destruct (registration_keeps_emails_unique ∅ Demo.primitives Demo.empty_world)
    as (Hinv & _ & _ & Hnew).
  destruct (registration_keeps_emails_unique ∅ Demo.primitives Demo.world_alice)
    as (_ & Hdup & _ & _).
  split; [|split; [|split]].
  - apply Hinv. apply NoDup_nil_2.
  - apply Hdup; [split; [by eexists|reflexivity]|].
    exists Demo.alice_doc. vm_compute. reflexivity.
  - apply Hdup; [split; [by eexists|reflexivity]|].
    exists Demo.alice_doc. vm_compute. reflexivity.
  - apply (Hnew Demo.alice
             (mkToken (issued_token ∅ Demo.primitives "a@x.com" (Demo.clock 3)) "bearer")).
    vm_compute. reflexivity.
Defined.

(** C9, as the code has it: a successful registration persists one
    document that reads back as the record with the supplied email, the
    hash [get_password_hash] produced for the supplied password, role
    ["admin"], no [last_login], [is_active] true, and as display name the
    supplied name when it is not empty, and otherwise (no name, or the
    empty name) what precedes the first ['@'] of the email. *)
Theorem registered_record_fields environ P payload w token :
  (register_admin environ P payload w).1 = Ok token ->
  exists d hashed display,
    db w = Some d /\
    bcrypt_hash P (urandom_at w (1 + tick w)) (payload_password payload) = Ok hashed /\
    let record := mkAdminUser (payload_email payload) hashed "admin" (Some display) None true in
    documents (register_admin environ P payload w).2 = (documents w ++ [stored d record])%list /\
    AdminUser_init (delete "_id" (stored d record)) = Ok record /\
    (forall n, payload_name payload = Some n -> n <> "" -> display = n) /\
    (payload_name payload = None \/ payload_name payload = Some "" ->
       display = split_at_0 (payload_email payload)) /\
    (forall l r, has_at l = false -> payload_email payload = l +:+ "@" +:+ r ->
       split_at_0 (payload_email payload) = l).
Proof.
  intros Hok. pose proof (register_admin_effect environ P payload w) as Heff.
  rewrite Hok in Heff. destruct Heff as (d & hashed & Hd & _ & Hhash & Hdb).
  exists d, hashed, (str_or (payload_name payload) (split_at_0 (payload_email payload))).
  split; [done|]. split; [done|]. cbv zeta. fold (new_record payload hashed).
  split; [unfold documents; by rewrite Hdb, Hd|].
  split; [apply stored_reads_back|].
  split; [intros n -> Hn; by destruct n|].
  split; [by intros [->| ->]|].
  intros l r Hl ->. by apply split_at_0_app.
Qed.

(** Alice's registration. *)
Lemma registered_record_fields_witness :
  exists d hashed display,
    db Demo.empty_world = Some d /\
    bcrypt_hash Demo.primitives (urandom_at Demo.empty_world (1 + tick Demo.empty_world))
      (payload_password Demo.alice) = Ok hashed /\
    let record := mkAdminUser (payload_email Demo.alice) hashed "admin" (Some display) None true in
    documents (register_admin ∅ Demo.primitives Demo.alice Demo.empty_world).2
      = (documents Demo.empty_world ++ [stored d record])%list /\
    AdminUser_init (delete "_id" (stored d record)) = Ok record /\
    (forall n, payload_name Demo.alice = Some n -> n <> "" -> display = n) /\
    (payload_name Demo.alice = None \/ payload_name Demo.alice = Some "" ->
       display = split_at_0 (payload_email Demo.alice)) /\
    (forall l r, has_at l = false -> payload_email Demo.alice = l +:+ "@" +:+ r ->
       split_at_0 (payload_email Demo.alice) = l).
Proof.
  apply (registered_record_fields ∅ Demo.primitives Demo.alice Demo.empty_world
           (mkToken (issued_token ∅ Demo.primitives "a@x.com" (Demo.clock 3)) "bearer")).
  vm_compute. reflexivity.
Defined.

(** C9 as stated fails: a registration that supplies the name [""] does
    not store [""] but the local part of the email. *)
Lemma empty_name_is_not_stored :
  payload_name Demo.nameless = Some "" /\
  (register_admin ∅ Demo.primitives Demo.nameless Demo.empty_world).1
    = Ok (mkToken (issued_token ∅ Demo.primitives "a@x.com" (Demo.clock 3)) "bearer") /\
  map (fun doc : Doc => doc !! "name")
      (documents (register_admin ∅ Demo.primitives Demo.nameless Demo.empty_world).2)
    = [Some (VStr "a")].
Proof. split; [reflexivity|]. split; vm_compute; reflexivity. Qed.



(** * Further properties *)

(** ** Tokens with any lifetime *)

Lemma create_access_token_lifetime environ P s expires_delta w :
  create_access_token environ P {["sub" := VStr s]} expires_delta w
  = (Ok (token_with_lifetime environ P s (utcnow_at w (tick w))
           (timedelta_or expires_delta (timedelta_minutes ACCESS_TOKEN_EXPIRE_MINUTES))),
     advance w).
Proof.
  unfold create_access_token, token_with_lifetime, claims_with_lifetime. mrun.
  by rewrite jwt_encode_sub_exp.
Qed.

Lemma jwt_decode_lifetime environ P s now delta w :
  jwt_decode P (token_with_lifetime environ P s now delta) (JWT_SECRET environ) [ALGORITHM] w
  = if timegm (now + delta) <? timegm (utcnow_at w (tick w))
    then (Raise (JWTError ExpiredSignatureError), advance w)
    else (Ok (claims_with_lifetime s now delta), advance w).
Proof.
  unfold token_with_lifetime. rewrite jwt_decode_signed, bind_run.
  unfold claims_with_lifetime. rewrite validate_claims_issued.
  by destruct (_ <? _).
Qed.

(** ** Lookups after a write *)

Lemma find_app_none {A} (f : A -> bool) l k :
  List.find f l = None -> List.find f (l ++ k)%list = List.find f k.
Proof.
  induction l as [|a l IH]; [done|]. simpl. destruct (f a); [done|]. exact IH.
Qed.

Lemma matches_stored d u : matches (VStr (email u)) (stored d u) = true.
Proof. unfold matches. apply bool_decide_eq_true. apply stored_email. Qed.

Lemma lookup_email_inserted w w' d u :
  db w = Some d -> db w' = Some (inserted d u) ->
  lookup_email (email u) w = None ->
  lookup_email (email u) w' = Some (stored d u).
Proof.
  unfold lookup_email, documents. intros -> -> Hnone. cbn [adminuser inserted].
  rewrite find_app_none by done. cbn [List.find]. by rewrite matches_stored.
Qed.

Lemma update_first_insert v field x docs doc :
  List.find (matches v) docs = Some doc ->
  exists i, docs !! i = Some doc /\
            (forall j d, (j < i)%nat -> docs !! j = Some d -> matches v d = false) /\
            update_first v field x docs = <[i := <[field := x]> doc]> docs.
Proof.
  induction docs as [|d ds IH]; [done|]. simpl.
  destruct (matches v d) eqn:Hm.
  - intros [= ->]. exists 0%nat. split; [done|]. split; [lia|done].
  - intros Hfind. destruct (IH Hfind) as (i & Hi & Hbefore & Heq).
    exists (S i). split; [done|]. split.
    + intros [|j] d' Hj; simpl; [by intros [= <-]|]. intros Hd'. apply (Hbefore j); [lia|done].
    + simpl. by rewrite Heq.
Qed.

(** ** What a successful registration or login has done *)

Lemma register_admin_ok environ P payload w token :
  (register_admin environ P payload w).1 = Ok token ->
  exists d hashed,
    db w = Some d /\
    lookup_email (payload_email payload) w = None /\
    bcrypt_hash P (urandom_at w (1 + tick w)) (payload_password payload) = Ok hashed /\
    token = mkToken (issued_token environ P (payload_email payload)
                       (utcnow_at w (3 + tick w))) "bearer" /\
    db (register_admin environ P payload w).2 = Some (inserted d (new_record payload hashed)).
Proof.
  destruct (db w) as [d|] eqn:Hd; [|by rewrite register_admin_unconfigured].
  destruct (store_fails_at w (tick w)) eqn:Hup;
    [by rewrite (register_admin_unreachable _ _ _ _ d)|].
  rewrite (register_admin_run _ _ _ _ d) by done.
  destruct (lookup_email _ _) as [user|] eqn:Hl; [done|].
  destruct (bcrypt_hash _ _ _) as [hashed|e] eqn:Hh; [|done].
  destruct (store_fails_at w (2 + tick w)); [done|]. simpl. intros [= <-]. eauto 10.
Qed.

Lemma login_ok environ P form w token :
  (login environ P form w).1 = Ok token ->
  exists d user,
    db w = Some d /\
    lookup_email (username form) w = Some user /\
    verify_password P (password form) (default (VStr "") (user !! "password_hash")) = Ok true /\
    token = mkToken (issued_token environ P (username form) (utcnow_at w (1 + tick w)))
                    "bearer" /\
    db (login environ P form w).2
    = Some (set_last_login (username form) (utcnow_at w (2 + tick w)) d).
Proof.
  destruct (db w) as [d|] eqn:Hd; [|by rewrite login_unconfigured].
  destruct (store_fails_at w (tick w)) eqn:Hup;
    [by rewrite (login_unreachable _ _ _ _ d)|].
  rewrite (login_run _ _ _ _ d) by done.
  destruct (lookup_email _ _) as [user|] eqn:Hl; [|done].
  destruct (verify_password _ _ _) as [[|]|e] eqn:Hv; [|done|done].
  destruct (store_fails_at w (3 + tick w)); [done|]. simpl. intros [= <-]. eauto 10.
Qed.

(** ** The local part of an email *)

Lemma split_at_0_no_at s : has_at (split_at_0 s) = false.
Proof.
  induction s as [|c s IH]; [done|]. simpl.
  destruct (Ascii.eqb c "@") eqn:Hc; [done|]. simpl. by rewrite Hc.
Qed.

Lemma split_at_0_prefix s : String.prefix (split_at_0 s) s = true.
Proof.
  induction s as [|c s IH]; [done|]. simpl.
  destruct (Ascii.eqb c "@") eqn:Hc; [done|]. simpl.
  destruct (ascii_dec c c); [exact IH|done].
Qed.

(** ** Sorting by order *)

Lemma py_lt_numbers a b m n :
  as_number a = Some m -> as_number b = Some n -> py_lt a b = Ok (m <? n).
Proof. destruct a, b; simpl; try done; by intros [= <-] [= <-]. Qed.

Lemma insort_numeric x l :
  numeric (x :: l) -> ascending l ->
  exists r, insort order_key x l = Ok r /\ r ≡ₚ x :: l /\ ascending r /\
            same_order_within_ties (x :: l) r.
Proof.
  intros Hnum Hsorted. induction l as [|y l IH]; simpl.
  - exists [x]. split; [done|]. split; [done|]. split; [repeat constructor|done].
  - apply Forall_cons in Hnum as [[m Hm] Hnum].
    pose proof Hnum as Hnum'. apply Forall_cons in Hnum' as [[n Hn] Hl].
    rewrite (py_lt_numbers _ _ n m) by done. simpl.
    assert (order_of x = m) as Hx by (unfold order_of; by rewrite Hm).
    assert (order_of y = n) as Hy by (unfold order_of; by rewrite Hn).
    apply StronglySorted_inv in Hsorted as [Hsl Hyl].
    destruct (n <? m) eqn:Hlt.
    + apply Z.ltb_lt in Hlt.
      destruct IH as (r & -> & Hperm & Hasc & Hstable); [| done |].
      { apply Forall_cons. split; [by eexists|done]. }
      exists (y :: r). simpl. split; [done|]. split.
      { rewrite Hperm. apply perm_swap. }
      split.
      { constructor; [done|]. rewrite Hperm. constructor; [lia|done]. }
      intros k. rewrite !filter_cons. rewrite (Hstable k). rewrite !filter_cons.
      repeat case_decide; try done; lia.
    + apply Z.ltb_ge in Hlt. exists (x :: y :: l). split; [done|]. split; [done|].
      split; [|done].
      constructor; [by constructor|]. constructor; [lia|].
      eapply Forall_impl; [exact Hyl|]. intros d Hd. simpl in Hd. lia.
Qed.

Lemma sorted_numeric docs :
  numeric docs ->
  exists r, sorted order_key docs = Ok r /\ r ≡ₚ docs /\ ascending r /\
            same_order_within_ties docs r.
Proof.
  induction docs as [|x l IH]; intros Hnum.
  - exists []. split; [done|]. split; [done|]. split; [constructor|done].
  - pose proof Hnum as Hnum'. apply Forall_cons in Hnum' as [Hx Hl].
    destruct (IH Hl) as (r & Hr & Hperm & Hasc & Hstable).
    simpl. rewrite Hr. simpl.
    destruct (insort_numeric x r) as (r' & Hr' & Hperm' & Hasc' & Hstable'); [|done|].
    { apply Forall_cons. split; [done|]. unfold numeric. by rewrite Hperm. }
    exists r'. split; [done|]. split; [by rewrite Hperm', Hperm|]. split; [done|].
    intros k. rewrite (Hstable' k). rewrite !filter_cons, (Hstable k). done.
Qed.

Lemma py_lt_same_kind a b k :
  kind_of a = Some k -> kind_of b = Some k -> exists r, py_lt a b = Ok r.
Proof. destruct a, b; simpl; intros; simplify_eq; eauto. Qed.

Lemma py_lt_ok_kind a b r :
  py_lt a b = Ok r -> exists k, kind_of a = Some k /\ kind_of b = Some k.
Proof. destruct a, b; simpl; intros; simplify_eq; eauto. Qed.

Lemma py_lt_raises a b e : py_lt a b = Raise e -> e = TypeError.
Proof. destruct a, b; simpl; intros; simplify_eq; eauto. Qed.

Lemma insort_ok x l r :
  insort order_key x l = Ok r ->
  r ≡ₚ x :: l /\
  forall y l', l = y :: l' ->
    exists k, kind_of (order_key y) = Some k /\ kind_of (order_key x) = Some k.
Proof.
  revert r. induction l as [|y l IH]; intros r; simpl.
  - intros [= <-]. split; [done|]. by intros.
  - destruct (py_lt (order_key y) (order_key x)) as [smaller|e] eqn:Hlt; [|done]. simpl.
    apply py_lt_ok_kind in Hlt. destruct smaller.
    + destruct (insort order_key x l) as [r0|e]; [|done]. simpl. intros [= <-].
      destruct (IH r0 eq_refl) as [Hperm _]. split.
      * rewrite Hperm. apply perm_swap.
      * by intros ? ? [= <- <-].
    + intros [= <-]. split; [done|]. by intros ? ? [= <- <-].
Qed.

Lemma insort_raises x l e : insort order_key x l = Raise e -> e = TypeError.
Proof.
  induction l as [|y l IH]; simpl; [done|].
  destruct (py_lt (order_key y) (order_key x)) as [smaller|e'] eqn:Hlt; simpl.
  - destruct smaller; [|done]. destruct (insort order_key x l); [done|]. simpl.
    intros [= <-]. by apply IH.
  - intros [= <-]. by apply py_lt_raises in Hlt.
Qed.

Lemma sorted_ok docs r :
  sorted order_key docs = Ok r ->
  r ≡ₚ docs /\ ((length docs <= 1)%nat \/ same_kind docs).
Proof.
  revert r. induction docs as [|x l IH]; intros r'; simpl.
  - intros [= <-]. split; [done|]. left. simpl. lia.
  - destruct (sorted order_key l) as [r|e]; [|done]. simpl. intros Hins.
    destruct (IH r eq_refl) as [Hperm Hkind]. apply insort_ok in Hins as [Hperm' Hhead].
    split; [by rewrite Hperm', Hperm|].
    destruct r as [|y r0].
    { apply Permutation_nil_l in Hperm as <-. left. simpl. lia. }
    right. destruct (Hhead y r0 eq_refl) as (k & Hy & Hx). exists k.
    apply Forall_cons. split; [done|].
    assert (y ∈ l) as Hin by (rewrite <- Hperm; apply list_elem_of_here).
    destruct Hkind as [Hshort|[k' Hall]].
    + destruct l as [|z [|? ?]]; simpl in Hshort; try lia.
      * by apply elem_of_nil in Hin.
      * apply list_elem_of_singleton in Hin as ->. by apply Forall_singleton.
    + rewrite Forall_forall in Hall. pose proof (Hall y Hin) as Hy'.
      assert (k' = k) as -> by congruence. by apply Forall_forall.
Qed.

Lemma sorted_raises docs e : sorted order_key docs = Raise e -> e = TypeError.
Proof.
  revert e. induction docs as [|x l IH]; intros e; simpl; [done|].
  destruct (sorted order_key l) as [r|e']; simpl.
  - apply insort_raises.
  - intros [= <-]. by apply IH.
Qed.

Lemma insort_same_kind k x l :
  Forall (fun d => kind_of (order_key d) = Some k) (x :: l) ->
  exists r, insort order_key x l = Ok r.
Proof.
  induction l as [|y l IH]; intros Hall; simpl; [eauto|].
  apply Forall_cons in Hall as [Hx Hall]. pose proof Hall as Hall'.
  apply Forall_cons in Hall' as [Hy Hl].
  destruct (py_lt_same_kind _ _ k Hy Hx) as [smaller ->]. simpl.
  destruct smaller; [|eauto].
  destruct IH as [r ->]; [by apply Forall_cons|]. simpl. eauto.
Qed.

Lemma sorted_same_kind docs :
  (length docs <= 1)%nat \/ same_kind docs -> exists r, sorted order_key docs = Ok r.
Proof.
  intros [Hshort|[k Hall]].
  - destruct docs as [|x [|? ?]]; simpl in *; try lia; eauto.
  - induction docs as [|x l IH]; simpl; [eauto|].
    pose proof Hall as Hall'. apply Forall_cons in Hall' as [Hx Hl].
    destruct (IH Hl) as [r Hr]. rewrite Hr. simpl.
    apply (insort_same_kind k). apply Forall_cons. split; [done|].
    apply sorted_ok in Hr as [Hperm _]. by rewrite Hperm.
Qed.

(** ** Renaming the id *)

Lemma with_id_renamed repr d : renamed repr d (with_id repr d).
Proof.
  unfold renamed, with_id. split; [|split].
  - rewrite lookup_insert_ne by done. apply lookup_delete_eq.
  - rewrite lookup_insert_eq. by destruct (d !! "_id").
  - intros k Hid H_id. rewrite lookup_insert_ne by done. by rewrite lookup_delete_ne.
Qed.

Lemma map_with_id_renamed repr docs :
  Forall2 (renamed repr) docs (map (with_id repr) docs).
Proof. induction docs; constructor; [apply with_id_renamed|done]. Qed.

(** ** Tokens *)

(** X1: an explicit lifetime other than zero is honoured, as long as the
    expiry it gives lies within the range of [datetime]: the token expires
    at the issuance time plus that lifetime, in whole seconds, and decodes
    to its subject until then. A lifetime of zero is falsy and gives the
    default lifetime instead. *)
Theorem explicit_lifetime_is_honoured environ P subject delta w_issue w_decode :
  delta <> 0 ->
  in_datetime_range (utcnow_at w_issue (tick w_issue)) ->
  in_datetime_range (utcnow_at w_issue (tick w_issue) + delta) ->
  timegm (utcnow_at w_decode (tick w_decode))
    <= timegm (utcnow_at w_issue (tick w_issue) + delta) ->
  create_access_token environ P {["sub" := VStr subject]} (Some 0) w_issue
    = create_access_token environ P {["sub" := VStr subject]} None w_issue /\
  exists token claims,
    (create_access_token environ P {["sub" := VStr subject]} (Some delta) w_issue).1
      = Ok token /\
    (jwt_decode P token (JWT_SECRET environ) [ALGORITHM] w_decode).1 = Ok claims /\
    claims !! "exp" = Some (VInt (timegm (utcnow_at w_issue (tick w_issue) + delta))) /\
    claims !! "sub" = Some (VStr subject).
Proof.
  intros Hd _ _ Hfresh. split; [reflexivity|].
  rewrite create_access_token_lifetime. do 2 eexists. split; [reflexivity|].
  rewrite jwt_decode_lifetime. unfold timedelta_or. rewrite (proj2 (Z.eqb_neq _ _) Hd).
  destruct (_ <? _) eqn:Hlt; [apply Z.ltb_lt in Hlt; lia|].
  split; [reflexivity|]. unfold claims_with_lifetime.
  split; [apply lookup_insert_eq|]. rewrite lookup_insert_ne by done.
  apply lookup_singleton_eq.
Qed.

(** A token with a lifetime of one minute. *)
Lemma explicit_lifetime_is_honoured_witness :
  exists token claims,
    (create_access_token ∅ Demo.primitives {["sub" := VStr "a@x.com"]} (Some 60000000)
       Demo.empty_world).1 = Ok token /\
    (jwt_decode Demo.primitives token (JWT_SECRET ∅) [ALGORITHM] Demo.world_alice).1
      = Ok claims /\
    claims !! "exp" = Some (VInt (timegm (utcnow_at Demo.empty_world (tick Demo.empty_world)
                                          + 60000000))) /\
    claims !! "sub" = Some (VStr "a@x.com").
Proof.
  apply (explicit_lifetime_is_honoured ∅ Demo.primitives "a@x.com" 60000000
           Demo.empty_world Demo.world_alice).
  - discriminate.
  - vm_compute. split; discriminate.
  - vm_compute. split; discriminate.
  - vm_compute. discriminate.
Defined.

(** X2: a token issued by [create_access_token], whatever its lifetime, is
    turned down by [get_current_admin] with the 401 once the clock, in
    whole seconds, has passed its expiry. *)
Theorem expired_token_is_rejected environ P subject expires_delta w_issue w token :
  (create_access_token environ P {["sub" := VStr subject]} expires_delta w_issue).1
    = Ok token ->
  timegm (utcnow_at w_issue (tick w_issue)
          + timedelta_or expires_delta (timedelta_minutes ACCESS_TOKEN_EXPIRE_MINUTES))
    < timegm (utcnow_at w (tick w)) ->
  (get_current_admin environ P token w).1
  = Raise (HTTPException 401 "Could not validate credentials").
Proof.
  rewrite create_access_token_lifetime. intros [= <-] Hlate.
  rewrite get_current_admin_run, jwt_decode_lifetime.
  by rewrite (proj2 (Z.ltb_lt _ _) Hlate).
Qed.

(** Alice's token nine hours later, and a token issued with a negative
    lifetime. *)
Lemma expired_token_is_rejected_witness :
  (get_current_admin ∅ Demo.primitives Demo.token_alice
     (Demo.nine_hours_later Demo.world_alice)).1
  = Raise (HTTPException 401 "Could not validate credentials") /\
  (get_current_admin ∅ Demo.primitives
     (token_with_lifetime ∅ Demo.primitives "a@x.com" (Demo.clock 0) (-1000000))
     Demo.world_alice).1
  = Raise (HTTPException 401 "Could not validate credentials").
Proof.
  split.
  - apply (expired_token_is_rejected ∅ Demo.primitives "a@x.com" None
             (after 3 Demo.empty_world)); vm_compute; reflexivity.
  - apply (expired_token_is_rejected ∅ Demo.primitives "a@x.com" (Some (-1000000))
             Demo.empty_world); vm_compute; reflexivity.
Defined.

(** ** Registration, login and authentication together *)

(** X4: after a successful registration every further registration of
    the same email, against the store it left, is refused with status 400,
    detail "Email already registered", and writes nothing. *)
Theorem second_registration_is_refused environ P payload w token again w' :
  (register_admin environ P payload w).1 = Ok token ->
  db w' = db (register_admin environ P payload w).2 ->
  store_fails_at w' (tick w') = false ->
  payload_email again = payload_email payload ->
  (register_admin environ P again w').1
    = Raise (HTTPException 400 "Email already registered") /\
  db (register_admin environ P again w').2 = db w'.
Proof.
  intros Hok Hdb Hup Hsame.
  destruct (register_admin_ok _ _ _ _ _ Hok) as (d & hashed & Hd & Hnone & _ & _ & Hdb').
  rewrite Hdb' in Hdb.
  pose proof (lookup_email_inserted w w' d (new_record payload hashed) Hd Hdb Hnone) as Hfind.
  cbn [email new_record] in Hfind.
  rewrite (register_admin_run _ _ _ _ _ Hdb Hup). by rewrite Hsame, Hfind.
Qed.

(** Alice's email, registered once more. *)
Lemma second_registration_is_refused_witness :
  (register_admin ∅ Demo.primitives Demo.nameless Demo.world_alice).1
    = Raise (HTTPException 400 "Email already registered") /\
  db (register_admin ∅ Demo.primitives Demo.nameless Demo.world_alice).2
    = db Demo.world_alice.
Proof.
  apply (second_registration_is_refused ∅ Demo.primitives Demo.alice Demo.empty_world
           (mkToken Demo.token_alice "bearer") Demo.nameless Demo.world_alice).
  - vm_compute. reflexivity.
  - reflexivity.
  - reflexivity.
  - reflexivity.
Defined.

(** X5: a successful login sets [last_login] of the first document that
    carries the email to the clock reading taken after the token was
    built, and changes nothing else: every other document and every other
    field stay as they were. *)
Theorem login_records_last_login environ P form w token :
  (login environ P form w).1 = Ok token ->
  exists i doc,
    documents w !! i = Some doc /\
    doc !! "email" = Some (VStr (username form)) /\
    (forall j d, (j < i)%nat -> documents w !! j = Some d ->
                 d !! "email" <> Some (VStr (username form))) /\
    documents (login environ P form w).2
    = <[i := <["last_login" := VDatetime (utcnow_at w (2 + tick w))]> doc]> (documents w).
Proof.
  intros Hok.
  destruct (login_ok _ _ _ _ _ Hok) as (d & user & Hd & Hfind & _ & _ & Hdb).
  destruct (lookup_email_found _ _ _ Hfind) as [Hemail _].
  unfold lookup_email in Hfind.
  destruct (update_first_insert (VStr (username form)) "last_login"
              (VDatetime (utcnow_at w (2 + tick w))) _ _ Hfind) as (i & Hi & Hbefore & Heq).
  exists i, user. split; [done|]. split; [done|]. split.
  - intros j d' Hj Hd' Hmatch. specialize (Hbefore j d' Hj Hd').
    unfold matches in Hbefore. by rewrite bool_decide_eq_true_2 in Hbefore.
  - rewrite <- Heq. unfold documents. rewrite Hdb, Hd. reflexivity.
Qed.

(** Alice logs in. *)
Lemma login_records_last_login_witness :
  exists i doc,
    documents Demo.world_alice !! i = Some doc /\
    doc !! "email" = Some (VStr (username Demo.login_alice)) /\
    (forall j d, (j < i)%nat -> documents Demo.world_alice !! j = Some d ->
                 d !! "email" <> Some (VStr (username Demo.login_alice))) /\
    documents (login ∅ Demo.primitives Demo.login_alice Demo.world_alice).2
    = <[i := <["last_login" := VDatetime (utcnow_at Demo.world_alice
                                            (2 + tick Demo.world_alice))]> doc]>
        (documents Demo.world_alice).
Proof.
  apply (login_records_last_login ∅ Demo.primitives Demo.login_alice Demo.world_alice
           (mkToken (issued_token ∅ Demo.primitives "a@x.com" (Demo.clock 5)) "bearer")).
  vm_compute. reflexivity.
Defined.

(** ** Request authentication at the edges *)

(** X7: request authentication never writes: whatever the token and
    whatever the outcome, the identity store is as it was. *)
Theorem request_authentication_never_writes environ P token w :
  db (get_current_admin environ P token w).2 = db w /\
  documents (get_current_admin environ P token w).2 = documents w.
Proof.
  pose proof (keeps_db_get_current_admin environ P token w) as Hdb.
  split; [exact Hdb|]. unfold documents. by rewrite Hdb.
Qed.

(** X8: without a configured database [get_current_admin] returns no
    caller whatever the token: it answers with the 401, except that an
    error the codec raises outside its own family (the [TypeError] of a
    signed token whose time claim is no number) is passed on. [login] and
    [register_admin] raise a [TypeError] from subscripting the missing
    handle and change nothing. *)
Theorem unconfigured_database environ P w :
  db w = None ->
  (forall token,
     (get_current_admin environ P token w).1
     = match (jwt_decode P token (JWT_SECRET environ) [ALGORITHM] w).1 with
       | Raise TypeError => Raise TypeError
       | _ => Raise (HTTPException 401 "Could not validate credentials")
       end) /\
  (forall form, login environ P form w = (Raise TypeError, w)) /\
  (forall payload, register_admin environ P payload w = (Raise TypeError, w)).
Proof.
  intros Hnone. split; [|split]; intros ?.
  - rewrite get_current_admin_run.
    pose proof (keeps_db_jwt_decode P token (JWT_SECRET environ) [ALGORITHM] w) as Hdb.
    pose proof (jwt_decode_raises P token (JWT_SECRET environ) [ALGORITHM] w) as Hraises.
    destruct (jwt_decode _ _ _ _ _) as [[claims|e] w1]; simpl in *.
    + destruct (claims !! "sub"); [|done]. by rewrite Hdb, Hnone.
    + by destruct (Hraises e eq_refl) as [He| ->]; [destruct e|].
  - by apply login_unconfigured.
  - by apply register_admin_unconfigured.
Qed.

(** The three handlers without a database. *)
Lemma unconfigured_database_witness :
  (get_current_admin ∅ Demo.primitives Demo.token_alice DemoContent.world_unconfigured).1
  = Raise (HTTPException 401 "Could not validate credentials") /\
  (login ∅ Demo.primitives Demo.login_alice DemoContent.world_unconfigured).1
  = Raise TypeError /\
  (register_admin ∅ Demo.primitives Demo.alice DemoContent.world_unconfigured).1
  = Raise TypeError.
Proof.
  destruct (unconfigured_database ∅ Demo.primitives DemoContent.world_unconfigured eq_refl)
    as (Hauth & Hlogin & Hregister).
  split; [|split; [by rewrite Hlogin|by rewrite Hregister]].
  rewrite Hauth.
  assert ((jwt_decode Demo.primitives Demo.token_alice (JWT_SECRET ∅) [ALGORITHM]
             DemoContent.world_unconfigured).1
          = Ok (issued_claims "a@x.com" (Demo.clock 3))) as -> by (vm_compute; reflexivity).
  reflexivity.
Defined.

(** X9: an error of the store is not reported as a credential failure:
    when the store fails at their lookup, [login] and [register_admin]
    raise the store's error, not their 400, and write nothing. *)
Theorem store_outage_is_not_a_credential_failure environ P w :
  is_Some (db w) ->
  store_fails_at w (tick w) = true ->
  (forall form, (login environ P form w).1 = Raise PyMongoError /\
                db (login environ P form w).2 = db w) /\
  (forall payload, (register_admin environ P payload w).1 = Raise PyMongoError /\
                   db (register_admin environ P payload w).2 = db w).
Proof.
  intros [d Hd] Hdown. split; intros ?.
  - by rewrite (login_unreachable _ _ _ _ d).
  - by rewrite (register_admin_unreachable _ _ _ _ d).
Qed.

(** The store is down when each handler looks the user up. *)
Lemma store_outage_is_not_a_credential_failure_witness :
  (login ∅ Demo.primitives Demo.login_alice (Demo.failing_from 4 Demo.world_alice)).1
    = Raise PyMongoError /\
  (register_admin ∅ Demo.primitives Demo.alice (Demo.failing_from 4 Demo.world_alice)).1
    = Raise PyMongoError.
Proof.
  destruct (store_outage_is_not_a_credential_failure ∅ Demo.primitives
              (Demo.failing_from 4 Demo.world_alice)) as [Hlogin Hregister];
    [by eexists|reflexivity|].
  split; [apply Hlogin|apply Hregister].
Defined.

(** ** The default display name *)

(** X12: a registration without a name stores as display name a prefix
    of the email that contains no ['@']: the whole email when the email
    has none, and the empty string when the email begins with one. *)
Theorem default_display_name_is_local_part environ P e pw w token :
  (register_admin environ P (mkAdminCreate e pw None) w).1 = Ok token ->
  exists d hashed display,
    db w = Some d /\
    (documents (register_admin environ P (mkAdminCreate e pw None) w).2
     = documents w ++ [stored d (mkAdminUser e hashed "admin" (Some display) None true)])%list /\
    has_at display = false /\
    String.prefix display e = true /\
    (has_at e = false -> display = e) /\
    (forall rest, e = String "@" rest -> display = "").
Proof.
  intros Hok.
  destruct (register_admin_ok _ _ _ _ _ Hok) as (d & hashed & Hd & _ & _ & _ & Hdb).
  exists d, hashed, (split_at_0 e). split; [done|]. split.
  { unfold documents. by rewrite Hdb, Hd. }
  split; [apply split_at_0_no_at|]. split; [apply split_at_0_prefix|].
  split; [apply split_at_0_whole|]. by intros rest ->.
Qed.

(** An email that begins with ['@']. *)
Lemma default_display_name_is_local_part_witness :
  exists d hashed display,
    db Demo.empty_world = Some d /\
    (documents (register_admin ∅ Demo.primitives (mkAdminCreate "@x.com" "pw123456" None)
                  Demo.empty_world).2
     = documents Demo.empty_world
       ++ [stored d (mkAdminUser "@x.com" hashed "admin" (Some display) None true)])%list /\
    has_at display = false /\
    String.prefix display "@x.com" = true /\
    (has_at "@x.com" = false -> display = "@x.com") /\
    (forall rest, "@x.com" = String "@" rest -> display = "").
Proof.
  apply (default_display_name_is_local_part ∅ Demo.primitives "@x.com" "pw123456"
           Demo.empty_world
           (mkToken (issued_token ∅ Demo.primitives "@x.com" (Demo.clock 3)) "bearer")).
  vm_compute. reflexivity.
Defined.

(** ** The content routes *)

(** X13: [list_blog] and [list_cases] return what [get_documents]
    returned, document by document and in the same sequence, with [_id]
    replaced by its string under [id] (the empty string when a document
    had none) and every other field untouched; an error of
    [get_documents] is passed on. *)
Theorem listings_rename_the_id D repr status w :
  match db_get_documents D "blogpost" (status_filter status) w with
  | (Ok docs, w') => exists rs, list_blog D repr status w = (Ok rs, w') /\
                                Forall2 (renamed repr) docs rs
  | (Raise e, w') => list_blog D repr status w = (Raise e, w')
  end /\
  match db_get_documents D "casestudy" (status_filter status) w with
  | (Ok docs, w') => exists rs, list_cases D repr status w = (Ok rs, w') /\
                                Forall2 (renamed repr) docs rs
  | (Raise e, w') => list_cases D repr status w = (Raise e, w')
  end.
Proof.
  unfold list_blog, list_cases. cbv zeta. rewrite !bind_run. split.
  - destruct (db_get_documents D "blogpost" _ w) as [[docs|e] w']; [|done].
    eexists. split; [reflexivity|]. apply map_with_id_renamed.
  - destruct (db_get_documents D "casestudy" _ w) as [[docs|e] w']; [|done].
    eexists. split; [reflexivity|]. apply map_with_id_renamed.
Qed.

(** X15: when every logo is ordered by a number (a missing [order]
    counts as 0), [list_logos] returns the logos [get_documents] returned,
    each exactly once, in ascending order, logos of equal order in the
    sequence they came in, with [_id] renamed and [order] untouched. *)
Theorem list_logos_sorts_by_order D repr active w docs w' :
  db_get_documents D "partnerlogo" (active_filter active) w = (Ok docs, w') ->
  numeric docs ->
  exists sorted_docs,
    list_logos D repr active w = (Ok (map (with_id repr) sorted_docs), w') /\
    sorted_docs ≡ₚ docs /\
    ascending sorted_docs /\
    same_order_within_ties docs sorted_docs /\
    Forall2 (fun d r => renamed repr d r /\ r !! "order" = d !! "order")
            sorted_docs (map (with_id repr) sorted_docs).
Proof.
  intros Hget Hnum. destruct (sorted_numeric docs Hnum) as (r & Hr & Hperm & Hasc & Hstable).
  exists r. unfold list_logos. cbv zeta. rewrite bind_run, Hget, bind_run, lift_run, Hr.
  split; [reflexivity|]. split; [done|]. split; [done|]. split; [done|].
  clear. induction r; constructor; [|done].
  split; [apply with_id_renamed|]. by apply with_id_renamed.
Qed.

(** Four logos, two of each order. *)
Lemma list_logos_sorts_by_order_witness :
  exists sorted_docs,
    list_logos (DemoContent.serving DemoContent.logos) DemoContent.repr None Demo.empty_world
      = (Ok (map (with_id DemoContent.repr) sorted_docs), Demo.empty_world) /\
    sorted_docs ≡ₚ DemoContent.logos /\
    ascending sorted_docs /\
    same_order_within_ties DemoContent.logos sorted_docs /\
    Forall2 (fun d r => renamed DemoContent.repr d r /\ r !! "order" = d !! "order")
            sorted_docs (map (with_id DemoContent.repr) sorted_docs).
Proof.
  apply (list_logos_sorts_by_order (DemoContent.serving DemoContent.logos) DemoContent.repr
           None Demo.empty_world DemoContent.logos Demo.empty_world).
  - reflexivity.
  - repeat (constructor; [vm_compute; by eexists|]). constructor.
Defined.

(** X16: [list_logos] succeeds when at most one logo is returned or all
    logos are ordered by values of one kind, and fails with a [TypeError]
    when two or more are returned and their orders are of different kinds
    (or [None]). *)
Theorem list_logos_fails_on_mixed_orders D repr active w docs w' :
  db_get_documents D "partnerlogo" (active_filter active) w = (Ok docs, w') ->
  ((length docs <= 1)%nat \/ same_kind docs ->
     exists sorted_docs, list_logos D repr active w = (Ok (map (with_id repr) sorted_docs), w') /\
                         sorted_docs ≡ₚ docs) /\
  ((2 <= length docs)%nat -> ~ same_kind docs ->
     list_logos D repr active w = (Raise TypeError, w')).
Proof.
  intros Hget. unfold list_logos. cbv zeta. rewrite bind_run, Hget, bind_run, lift_run.
  split.
  - intros Hkind. destruct (sorted_same_kind docs Hkind) as [r Hr]. rewrite Hr.
    exists r. split; [reflexivity|]. by apply sorted_ok in Hr as [? _].
  - intros Hlen Hmixed. destruct (sorted order_key docs) as [r|e] eqn:Hsorted.
    + apply sorted_ok in Hsorted as [_ [Hshort|Hkind]]; [lia|done].
    + by apply sorted_raises in Hsorted as ->.
Qed.

(** A number and a string as orders. *)
Lemma list_logos_fails_on_mixed_orders_witness :
  list_logos (DemoContent.serving DemoContent.mixed_logos) DemoContent.repr None
    Demo.empty_world = (Raise TypeError, Demo.empty_world).
Proof.
  destruct (list_logos_fails_on_mixed_orders (DemoContent.serving DemoContent.mixed_logos)
              DemoContent.repr None Demo.empty_world DemoContent.mixed_logos
              Demo.empty_world eq_refl) as [_ Hmixed].
  apply Hmixed; [simpl; lia|].
  intros [k Hall]. apply Forall_cons in Hall as [Ha Hall].
  apply Forall_cons in Hall as [Hb _].
  vm_compute in Ha. vm_compute in Hb. congruence.
Defined.

(** X17: the routes that write content never reach [create_document].
    [get_current_admin] runs first and returns no caller, so [create_blog],
    [create_logo] and [create_case] raise what it raised, whatever the
    token, the payload and the database module, and the identity store is
    as it was. For a token that is in order, presented while a database is
    configured, that is the [NotImplementedError] of the handle's truth
    test. *)
Theorem content_routes_never_write D environ P token w :
  exists e w',
    get_current_admin environ P token w = (Raise e, w') /\
    db w' = db w /\
    (forall item, create_blog D environ P item token w = (Raise e, w')) /\
    (forall item, create_logo D environ P item token w = (Raise e, w')) /\
    (forall item, create_case D environ P item token w = (Raise e, w')) /\
    (forall subject, names_subject environ P token subject w -> is_Some (db w) ->
       e = NotImplementedError).
Proof.
  pose proof (keeps_db_get_current_admin environ P token w) as Hdb.
  pose proof (get_current_admin_returns_nothing environ P token w) as Hnever.
  pose proof (get_current_admin_subject environ P token) as Hsubject.
  unfold create_blog, create_logo, create_case.
  destruct (get_current_admin environ P token w) as [[caller|e] w'] eqn:Hrun.
  - by destruct (Hnever caller).
  - exists e, w'. split; [reflexivity|]. split; [exact Hdb|].
    repeat (split; [intros item; by rewrite bind_run, Hrun|]).
    intros subject Hnames [d Hd]. specialize (Hsubject subject w Hnames).
    rewrite Hrun, Hd in Hsubject. simpl in Hsubject. congruence.
Qed.

(** Alice's own token writes no post. *)
Lemma content_routes_never_write_witness :
  exists e w',
    get_current_admin ∅ Demo.primitives Demo.token_alice Demo.world_alice = (Raise e, w') /\
    create_blog (DemoContent.serving []) ∅ Demo.primitives DemoContent.post Demo.token_alice
      Demo.world_alice = (Raise e, w') /\
    e = NotImplementedError.
Proof.
  destruct (content_routes_never_write (DemoContent.serving []) ∅ Demo.primitives
              Demo.token_alice Demo.world_alice)
    as (e & w' & Hrun & _ & Hblog & _ & _ & Hcause).
  exists e, w'. split; [exact Hrun|]. split; [apply Hblog|].
  apply (Hcause "a@x.com"); [|by eexists].
  exists (issued_claims "a@x.com" (Demo.clock 3)). split; vm_compute; reflexivity.
Defined.
